(** * Review service (app.py): classifier and review store

    A shallow embedding of [src/app.py]: the keyword classifier
    [analyze_sentiment], the [reviews] table created by [init_db], and the
    two request handlers [create_review] and [get_reviews].

    Python values are modelled as the code has them: a [str] is a sequence of
    Unicode code points, a row of the table is a record of its four columns,
    the [dict] a handler returns is an association list from column names to
    dynamically typed values, and the database is passed around explicitly. *)

From Stdlib Require Import List Bool NArith ZArith Lia String Ascii.
From Stdlib Require Import Permutation Sorted RelationClasses.
Import ListNotations.

(** ** Python strings *)

(** A Python [str]: a sequence of Unicode code points. *)
Definition str := list N.

Module Str.

(** Decoder of UTF-8 bytes, used only to write the string literals of the
    source legibly. *)
Fixpoint decode_utf8 (bs : list N) : str :=
  match bs with
  | [] => []
  | b0 :: r0 =>
    if (b0 <? 128)%N then b0 :: decode_utf8 r0
    else match r0 with
    | [] => []
    | b1 :: r1 =>
      if (b0 <? 224)%N then
        ((b0 - 192) * 64 + (b1 - 128))%N :: decode_utf8 r1
      else match r1 with
      | [] => []
      | b2 :: r2 =>
        if (b0 <? 240)%N then
          ((b0 - 224) * 4096 + (b1 - 128) * 64 + (b2 - 128))%N :: decode_utf8 r2
        else match r2 with
        | [] => []
        | b3 :: r3 =>
          ((b0 - 240) * 262144 + (b1 - 128) * 4096
           + (b2 - 128) * 64 + (b3 - 128))%N :: decode_utf8 r3
        end
      end
    end
  end.

Definition lit (s : string) : str :=
  decode_utf8 (map N_of_ascii (list_ascii_of_string s)).

(** [a == b] on two strings. *)
Fixpoint eqb (a b : str) : bool :=
  match a, b with
  | [], [] => true
  | x :: a', y :: b' => (x =? y)%N && eqb a' b'
  | _, _ => false
  end.

(** [s.startswith(p)]. *)
Fixpoint startswith (p s : str) : bool :=
  match p, s with
  | [], _ => true
  | _ :: _, [] => false
  | x :: p', y :: s' => (x =? y)%N && startswith p' s'
  end.

(** [sub in s]: [sub] occurs in [s] at some offset. *)
Fixpoint contains (sub s : str) : bool :=
  startswith sub s ||
  match s with
  | [] => false
  | _ :: s' => contains sub s'
  end.

(** The mathematical reading of "[s] contains the substring [sub]". *)
Definition substring (sub s : str) : Prop :=
  exists pre post, s = pre ++ sub ++ post.

(** Truth value of a string in a condition: the empty string is false. *)
Definition truthy (s : str) : bool :=
  match s with
  | [] => false
  | _ :: _ => true
  end.

(** Character-wise lowering of the capitals of Basic Latin (A..Z) and of
    the Cyrillic block (U+0400..U+042F); every other code point is kept.
    On strings over Basic Latin and U+0400..U+045F it is what [str.lower]
    computes.  It instantiates the lowering function wherever a concrete
    one is needed. *)
Definition lower_char (c : N) : N :=
  if (65 <=? c)%N && (c <=? 90)%N then (c + 32)%N
  else if (1024 <=? c)%N && (c <=? 1039)%N then (c + 80)%N
  else if (1040 <=? c)%N && (c <=? 1071)%N then (c + 32)%N
  else c.

Definition lower_basic (s : str) : str := map lower_char s.

End Str.

(** ** The classifier *)

Definition positive : str := Eval cbv in Str.lit "positive".
Definition negative : str := Eval cbv in Str.lit "negative".
Definition neutral : str := Eval cbv in Str.lit "neutral".

(** The two keyword lists of [analyze_sentiment]. *)
Definition positive_words : list str :=
  Eval cbv in [Str.lit "хорош"; Str.lit "люблю"].
Definition negative_words : list str :=
  Eval cbv in [Str.lit "плохо"; Str.lit "ненавиж"].

(** ** The reviews table *)

Local Open Scope Z_scope.

(** A naive timestamp ([datetime.now()], column type [TIMESTAMP]): a count of
    microseconds on the server's wall clock.  Both sides keep microseconds,
    so a timestamp is stored and read back unchanged. *)
Definition datetime := Z.

(** A row of the table [reviews]. *)
Module Review.
Record t := mk {
  id : Z;
  text : str;
  sentiment : str;
  created_at : datetime
}.
End Review.

(** The database as the application sees it: the rows of [reviews] in the
    order they were appended, and the last value handed out by the sequence
    behind [id SERIAL] (0 when it was never called). *)
Record Database := mkDatabase {
  reviews : list Review.t;
  reviews_id_seq : Z
}.

Definition empty_database : Database := mkDatabase [] 0.

(** Largest value of a [SERIAL] column. *)
Definition serial_max : Z := 2147483647.

(** [init_db]: [CREATE TABLE IF NOT EXISTS].  [None] stands for a database
    in which the table is absent; an existing table is left as it is. *)
Definition init_db (existing : option Database) : Database :=
  match existing with
  | None => empty_database
  | Some db => db
  end.

Module Sql.

(** What a [TEXT] argument of a statement can hold: the code points that
    have a UTF-8 encoding, which leaves out the surrogates, except code
    point 0, which a text value cannot contain.  A statement with another
    argument raises before it is executed. *)
Definition encodable_char (c : N) : bool :=
  (0 <? c)%N && (c <=? 1114111)%N
  && negb ((55296 <=? c)%N && (c <=? 57343)%N).

Definition encodable (s : str) : bool := forallb encodable_char s.

(** [INSERT INTO reviews (text, sentiment, created_at) VALUES ($1, $2, $3)
    RETURNING id].  With an argument that cannot be encoded the statement
    raises and nothing changes.  Otherwise the sequence is advanced first
    and fails once it is exhausted; the row is refused when its id is
    already taken ([PRIMARY KEY]), in which case the sequence value stays
    consumed.  A lost connection is outside the model. *)
Definition insert_returning_id (text sentiment : str) (created_at : datetime)
    (db : Database) : option Z * Database :=
  let next := (reviews_id_seq db + 1)%Z in
  if negb (encodable text && encodable sentiment) then (None, db)
  else if (serial_max <? next)%Z then (None, db)
  else if existsb (fun r => (Review.id r =? next)%Z) (reviews db) then
    (None, mkDatabase (reviews db) next)
  else
    (Some next,
     mkDatabase (reviews db ++ [Review.mk next text sentiment created_at]) next).

(** [SELECT id, text, sentiment, created_at FROM reviews WHERE id = $1],
    read with [fetchrow]: the first matching row, if any. *)
Definition select_by_id (review_id : Z) (db : Database) : option Review.t :=
  find (fun r => (Review.id r =? review_id)%Z) (reviews db).

(** The rows selected by [... WHERE sentiment = $1] and by the query without
    a [WHERE] clause, before ordering. *)
Definition where_sentiment (sentiment : str) (db : Database) : list Review.t :=
  filter (fun r => Str.eqb (Review.sentiment r) sentiment) (reviews db).

Definition all_rows (db : Database) : list Review.t := reviews db.

(** [ORDER BY created_at DESC]: the result holds the selected rows, each as
    often as it was selected, with timestamps never increasing.  The clause
    names no second key, so rows with equal timestamps may come in any
    order. *)
Definition created_at_desc (a b : Review.t) : Prop :=
  (Review.created_at b <= Review.created_at a)%Z.

Definition order_by_created_at_desc (selected result : list Review.t) : Prop :=
  Permutation selected result /\ StronglySorted created_at_desc result.

(** One admissible ordering, computed: a stable insertion sort, which keeps
    rows with equal timestamps in insertion order. *)
Fixpoint insert_desc (r : Review.t) (l : list Review.t) : list Review.t :=
  match l with
  | [] => [r]
  | x :: l' =>
    if (Review.created_at x <=? Review.created_at r)%Z then r :: l
    else x :: insert_desc r l'
  end.

Definition sort_created_at_desc (l : list Review.t) : list Review.t :=
  fold_right insert_desc [] l.

End Sql.

(** ** Values handed to the framework *)

(** The Python values that occur in a row. *)
Inductive value :=
| Int (n : Z)
| Text (s : str)
| Datetime (t : datetime).

(** A [dict] keyed by column names, in insertion order. *)
Definition dict := list (string * value).

Definition dict_get (key : string) (d : dict) : option value :=
  match find (fun kv => String.eqb (fst kv) key) d with
  | Some kv => Some (snd kv)
  | None => None
  end.

(** [dict(record)] for a row fetched with the four columns selected. *)
Definition dict_of_record (r : Review.t) : dict :=
  [("id", Int (Review.id r));
   ("text", Text (Review.text r));
   ("sentiment", Text (Review.sentiment r));
   ("created_at", Datetime (Review.created_at r))]%string.

(** The declared models.  [ReviewRequest] has the single field [text: str];
    [ReviewResponse] declares [id: int] and three [str] fields. *)
Module ReviewRequest.
Record t := mk { text : str }.
End ReviewRequest.

Inductive field_type := T_int | T_str.

Definition ReviewResponse : list (string * field_type) :=
  [("id", T_int); ("text", T_str); ("sentiment", T_str);
   ("created_at", T_str)]%string.

Definition has_type (v : value) (ty : field_type) : bool :=
  match v, ty with
  | Int _, T_int => true
  | Text _, T_str => true
  | _, _ => false
  end.

(** A dict is an instance of a model when every declared field is present
    with a value of the declared type. *)
Definition instance_of (model : list (string * field_type)) (d : dict) : bool :=
  forallb (fun f => match dict_get (fst f) d with
                    | Some v => has_type v (snd f)
                    | None => false
                    end) model.

(** Outcome of a request, or of a handler: a body, or an error. *)
Inductive response :=
| ReviewBody (d : dict)
| ReviewsBody (l : list dict)
| ClientError
| ServerError.

(** What the framework answers for a value a handler returned: the routes
    declare [response_model=ReviewResponse] and
    [response_model=list[ReviewResponse]], so the value is validated
    against the model and a value that is no instance of it is answered
    with a server error.  An error of the handler is passed on. *)
Definition validate_response (returned : response) : response :=
  match returned with
  | ReviewBody d =>
    if instance_of ReviewResponse d then ReviewBody d else ServerError
  | ReviewsBody l =>
    if forallb (instance_of ReviewResponse) l then ReviewsBody l
    else ServerError
  | ClientError => ClientError
  | ServerError => ServerError
  end.

(** ** Request bodies *)

#[local] Unset Elimination Schemes.
Inductive json :=
| JNull
| JBool (b : bool)
| JNumber (n : Z)
| JString (s : str)
| JArray (items : list json)
| JObject (members : list (str * json)).
#[local] Set Elimination Schemes.

(** Member of a parsed object; of several members with one name the last
    one counts. *)
Definition member (name : str) (members : list (str * json)) : option json :=
  match find (fun kv => Str.eqb (fst kv) name) (rev members) with
  | Some kv => Some (snd kv)
  | None => None
  end.

Definition has_member (name : str) (j : json) : bool :=
  match j with
  | JObject members => existsb (fun kv => Str.eqb (fst kv) name) members
  | _ => false
  end.

Definition text_field : str := Eval cbv in Str.lit "text".

(** Modelled from the spec: the validation of the request body against
    [ReviewRequest], which the framework performs before it calls the
    handler and which [src/app.py] only declares.  The body must be
    well-formed JSON ([None] stands for a body that is not), and its
    required field [text] must be present and be a string; the empty string
    is accepted. *)
Definition validate_ReviewRequest (body : option json) : option ReviewRequest.t :=
  match body with
  | Some (JObject members) =>
    match member text_field members with
    | Some (JString s) => Some (ReviewRequest.mk s)
    | _ => None
    end
  | _ => None
  end.

(** ** Sample data

    Two requests and the rows and databases they produce on a fresh table;
    the examples and the concrete instances below run the handlers on
    them. *)
Module Sample.

Definition empty_text : ReviewRequest.t := ReviewRequest.mk [].
Definition good_text : str := Eval cbv in Str.lit "Хорошо".
Definition good : ReviewRequest.t := ReviewRequest.mk good_text.

(** Row of [empty_text] created first, at time 0. *)
Definition rowA : Review.t := Review.mk 1 [] neutral 0.
(** Row of [good] created second, at the same time and one tick later. *)
Definition rowB : Review.t := Review.mk 2 (ReviewRequest.text good) positive 0.
Definition rowB_later : Review.t :=
  Review.mk 2 (ReviewRequest.text good) positive 1.

Definition db_A : Database := mkDatabase [rowA] 1.
Definition db_AB : Database := mkDatabase [rowA; rowB] 2.
Definition db_AB_later : Database := mkDatabase [rowA; rowB_later] 2.

Definition unknown : str := Eval cbv in Str.lit "unknown".

(** A text and a filter that consist of code point 0. *)
Definition nul : str := [0%N].

End Sample.

Section App.

(** [str.lower] of the Python runtime.  The development holds for whatever
    this function is; only the remark on the empty string uses that the
    lowering of the empty string is empty. *)
Variable lower : str -> str.

(** [any(word in text_lower for word in words)]. *)
Definition any_word_in (words : list str) (text_lower : str) : bool :=
  existsb (fun word => Str.contains word text_lower) words.

Definition analyze_sentiment (text : str) : str :=
  let text_lower := lower text in
  if any_word_in positive_words text_lower then positive
  else if any_word_in negative_words text_lower then negative
  else neutral.

(** "The lower-cased input contains a substring from the set [words]". *)
Definition has_keyword (words : list str) (text : str) : Prop :=
  exists word, In word words /\ Str.substring word (lower text).

(** ** The handlers *)

(** The handler of [POST /reviews].  [now] is the value [datetime.now()]
    reads.  [ReviewBody d] stands for the handler returning [d] and
    [ServerError] for the handler raising, as it does when the insertion
    fails or when [dict] is applied to a row that was not found. *)
Definition create_review (review : ReviewRequest.t) (now : datetime)
    (db : Database) : response * Database :=
  let sentiment := analyze_sentiment (ReviewRequest.text review) in
  let created_at := now in
  match Sql.insert_returning_id (ReviewRequest.text review) sentiment created_at db with
  | (None, db') => (ServerError, db')
  | (Some review_id, db') =>
    match Sql.select_by_id review_id db' with
    | Some new_review => (ReviewBody (dict_of_record new_review), db')
    | None => (ServerError, db')
    end
  end.

(** The rows a listing selects: [if sentiment:] takes the filtered query for
    a non-empty string only; [None] and the empty string are both false. *)
Definition selected (sentiment : option str) (db : Database) : list Review.t :=
  match sentiment with
  | Some s => if Str.truthy s then Sql.where_sentiment s db else Sql.all_rows db
  | None => Sql.all_rows db
  end.

(** The query of a listing raises when it is the filtered one and its
    argument cannot be encoded. *)
Definition listing_raises (sentiment : option str) : bool :=
  match sentiment with
  | Some s => Str.truthy s && negb (Sql.encodable s)
  | None => false
  end.

(** The handler of [GET /reviews]: [out] is a possible return value.  The
    handler returns only when its query does not raise.  The database is
    only read. *)
Definition get_reviews (sentiment : option str) (db : Database)
    (out : list dict) : Prop :=
  listing_raises sentiment = false
  /\ exists reviews,
       Sql.order_by_created_at_desc (selected sentiment db) reviews
       /\ out = map dict_of_record reviews.

(** The handler of [GET /reviews] raises. *)
Definition get_reviews_raises (sentiment : option str) (db : Database) : Prop :=
  listing_raises sentiment = true.

(** The listing computed with the stable ordering. *)
Definition get_reviews_stable (sentiment : option str) (db : Database) : list dict :=
  map dict_of_record (Sql.sort_created_at_desc (selected sentiment db)).

(** The handler of [GET /reviews] run with the stable ordering: [None] when
    it raises. *)
Definition get_reviews_run (sentiment : option str) (db : Database)
    : option (list dict) :=
  if listing_raises sentiment then None
  else Some (get_reviews_stable sentiment db).

(** The endpoint [POST /reviews] as a client reaches it: the body is
    validated first and the handler runs on a valid body only; what the
    handler returns is validated against the response model before it is
    sent.  The database is as the handler left it. *)
Definition post_reviews (body : option json) (now : datetime)
    (db : Database) : response * Database :=
  match validate_ReviewRequest body with
  | None => (ClientError, db)
  | Some review =>
    (validate_response (fst (create_review review now db)),
     snd (create_review review now db))
  end.

(** ** The service as a transition system *)

Inductive request :=
| POST_reviews (body : option json) (now : datetime)
| GET_reviews (sentiment : option str).

Inductive step : Database -> request -> response -> Database -> Prop :=
| step_post body now db :
    step db (POST_reviews body now)
         (fst (post_reviews body now db)) (snd (post_reviews body now db))
| step_get sentiment db out :
    get_reviews sentiment db out ->
    step db (GET_reviews sentiment) (validate_response (ReviewsBody out)) db
| step_get_raises sentiment db :
    get_reviews_raises sentiment db ->
    step db (GET_reviews sentiment) ServerError db.

(** States the service reaches from a database without the table. *)
Inductive reachable : Database -> Prop :=
| reachable_init : reachable (init_db None)
| reachable_step db req resp db' :
    reachable db -> step db req resp db' -> reachable db'.

(** A sequence of creation requests, run in order. *)
Fixpoint create_all (requests : list (ReviewRequest.t * datetime))
    (db : Database) : Database :=
  match requests with
  | [] => db
  | (review, now) :: rest => create_all rest (snd (create_review review now db))
  end.

(** ** Properties of a database and of a listing *)

(** The row a creation request inserts. *)
Definition new_row (review : ReviewRequest.t) (now : datetime)
    (db : Database) : Review.t :=
  Review.mk (reviews_id_seq db + 1) (ReviewRequest.text review)
            (analyze_sentiment (ReviewRequest.text review)) now.

Definition enumerated (s : str) : Prop :=
  s = positive \/ s = negative \/ s = neutral.

(** Every stored sentiment is one of the three enumerated values. *)
Definition sentiments_enumerated (db : Database) : Prop :=
  Forall (fun r => enumerated (Review.sentiment r)) (reviews db).

(** The ids handed out so far cover the ids in the table, as they do when
    rows are only ever inserted through the sequence. *)
Definition ids_from_sequence (db : Database) : Prop :=
  Forall (fun r => (Review.id r <= reviews_id_seq db)%Z) (reviews db).

(** [out] consists of exactly the rows of [db] that satisfy [p], each once
    per stored row. *)
Definition returns_exactly (p : Review.t -> bool) (db : Database)
    (out : list dict) : Prop :=
  exists rows, Permutation (filter p (reviews db)) rows
               /\ out = map dict_of_record rows.

Definition sentiment_is (s : str) (r : Review.t) : bool :=
  Str.eqb (Review.sentiment r) s.

(** [x] occurs in [l] somewhere before an occurrence of [y]. *)
Definition precedes {A : Type} (x y : A) (l : list A) : Prop :=
  exists l1 l2 l3, l = l1 ++ x :: l2 ++ y :: l3.

(** The timestamps of a listing, in the order listed. *)
Definition timestamp_of (d : dict) : option value := dict_get "created_at" d.

Definition newest_first (out : list dict) : Prop :=
  StronglySorted
    (fun a b => match timestamp_of a, timestamp_of b with
                | Some (Datetime ta), Some (Datetime tb) => (tb <= ta)%Z
                | _, _ => False
                end) out.

(** No two rows share an id, as [PRIMARY KEY] demands. *)
Definition unique_ids (db : Database) : Prop :=
  NoDup (map Review.id (reviews db)).

(** No two rows share a timestamp. *)
Definition distinct_timestamps (db : Database) : Prop :=
  NoDup (map Review.created_at (reviews db)).

(** The timestamps strictly increase in the order of insertion. *)
Definition clock_increasing (db : Database) : Prop :=
  StronglySorted
    (fun a b => (Review.created_at a < Review.created_at b)%Z) (reviews db).

(** The requests of a run whose text can be encoded. *)
Definition accepted (requests : list (ReviewRequest.t * datetime))
    : list (ReviewRequest.t * datetime) :=
  filter (fun rq => Sql.encodable (ReviewRequest.text (fst rq))) requests.

(** The rows a run of creation requests appends when each of them succeeds
    and the sequence stood at [last_id] before. *)
Fixpoint rows_of (requests : list (ReviewRequest.t * datetime))
    (last_id : Z) : list Review.t :=
  match requests with
  | [] => []
  | (review, now) :: rest =>
    Review.mk (last_id + 1) (ReviewRequest.text review)
              (analyze_sentiment (ReviewRequest.text review)) now
    :: rows_of rest (last_id + 1)
  end.

(** The test a client applies to an entry of a listing to keep the entries
    of one sentiment: [d["sentiment"] == s]. *)
Definition entry_has_sentiment (s : str) (d : dict) : bool :=
  match dict_get "sentiment" d with
  | Some (Text s') => Str.eqb s' s
  | _ => false
  end.

(** *** String search is substring containment *)

Lemma startswith_app (p s : str) :
  Str.startswith p s = true <-> exists post, s = p ++ post.
Proof.
  revert s; induction p as [|x p IH]; intros s; simpl.
  - split; [intros _; now exists s | reflexivity].
  - destruct s as [|y s].
    + split; [discriminate | intros [post H]; discriminate].
    + rewrite andb_true_iff, N.eqb_eq, IH. split.
      * intros [-> [post ->]]. now exists post.
      * intros [post H]. injection H as -> ->. split; [reflexivity | now exists post].
Qed.

Lemma contains_substring (sub s : str) :
  Str.contains sub s = true <-> Str.substring sub s.
Proof.
  induction s as [|y s IH].
  - simpl. rewrite orb_false_r, startswith_app. split.
    + intros [post H]. exists [], post. exact H.
    + intros [pre [post H]]. destruct pre as [|z pre]; [|discriminate].
      now exists post.
  - cbn [Str.contains]. rewrite orb_true_iff, startswith_app, IH. split.
    + intros [[post H] | [pre [post H]]].
      * exists [], post. exact H.
      * exists (y :: pre), post. simpl. now rewrite H.
    + intros [pre [post H]]. destruct pre as [|z pre].
      * left. now exists post.
      * right. injection H as _ H. now exists pre, post.
Qed.

Lemma any_word_in_has_keyword (words : list str) (text : str) :
  any_word_in words (lower text) = true <-> has_keyword words text.
Proof.
  unfold any_word_in, has_keyword. rewrite existsb_exists.
  split; intros [w [Hin Hw]]; exists w; split; trivial;
    now apply contains_substring.
Qed.

(** C1.  The classifier returns positive when the lower-cased input contains
    a positive keyword, otherwise negative when it contains a negative
    keyword, otherwise neutral.  Hence text with keywords of both kinds is
    positive and, the lowering of the empty string being empty, the empty
    string is neutral. *)
Theorem analyze_sentiment_spec :
  (forall text,
      (has_keyword positive_words text -> analyze_sentiment text = positive)
      /\ (~ has_keyword positive_words text ->
          has_keyword negative_words text -> analyze_sentiment text = negative)
      /\ (~ has_keyword positive_words text ->
          ~ has_keyword negative_words text -> analyze_sentiment text = neutral))
  /\ (forall text,
         has_keyword positive_words text -> has_keyword negative_words text ->
         analyze_sentiment text = positive)
  /\ (lower [] = [] -> analyze_sentiment [] = neutral).
Proof.
  assert (Hpos : forall text, has_keyword positive_words text ->
                              analyze_sentiment text = positive).
  { intros text H. apply any_word_in_has_keyword in H.
    unfold analyze_sentiment. now rewrite H. }
  split; [intros text; repeat split | split].
  - apply Hpos.
  - intros Hp Hn. apply any_word_in_has_keyword in Hn.
    unfold analyze_sentiment. rewrite Hn.
    destruct (any_word_in positive_words (lower text)) eqn:E; trivial.
    apply any_word_in_has_keyword in E. contradiction.
  - intros Hp Hn. unfold analyze_sentiment.
    destruct (any_word_in positive_words (lower text)) eqn:Ep.
    { apply any_word_in_has_keyword in Ep. contradiction. }
    destruct (any_word_in negative_words (lower text)) eqn:En; trivial.
    apply any_word_in_has_keyword in En. contradiction.
  - intros text Hp _. now apply Hpos.
  - intros H. unfold analyze_sentiment. rewrite H. reflexivity.
Qed.

(** *** The ordering of a listing *)

Lemma insert_desc_perm (r : Review.t) (l : list Review.t) :
  Permutation (r :: l) (Sql.insert_desc r l).
Proof.
  induction l as [|x l IH]; simpl; [reflexivity|].
  destruct (Review.created_at x <=? Review.created_at r)%Z; [reflexivity|].
  rewrite perm_swap. now apply perm_skip.
Qed.

Lemma insert_desc_sorted (r : Review.t) (l : list Review.t) :
  StronglySorted Sql.created_at_desc l ->
  StronglySorted Sql.created_at_desc (Sql.insert_desc r l).
Proof.
  induction 1 as [|x l Hl IH Hx]; simpl.
  - repeat constructor.
  - destruct (Review.created_at x <=? Review.created_at r)%Z eqn:E.
    + apply Z.leb_le in E. constructor; [now constructor|].
      constructor; [exact E|].
      eapply Forall_impl; [|exact Hx].
      unfold Sql.created_at_desc; intros; lia.
    + apply Z.leb_gt in E. constructor; [exact IH|].
      eapply Permutation_Forall; [apply insert_desc_perm|].
      constructor; [unfold Sql.created_at_desc; lia | exact Hx].
Qed.

Lemma sort_created_at_desc_ordered (l : list Review.t) :
  Sql.order_by_created_at_desc l (Sql.sort_created_at_desc l).
Proof.
  unfold Sql.order_by_created_at_desc.
  induction l as [|x l [IHp IHs]]; simpl.
  - split; constructor.
  - split.
    + rewrite <- insert_desc_perm. now apply perm_skip.
    + now apply insert_desc_sorted.
Qed.

(** A listing whose query does not raise has a result: the stable one is
    among them. *)
Lemma get_reviews_stable_sound (sentiment : option str) (db : Database) :
  listing_raises sentiment = false ->
  get_reviews sentiment db (get_reviews_stable sentiment db).
Proof.
  intros Hok. split; [exact Hok|].
  exists (Sql.sort_created_at_desc (selected sentiment db)).
  split; [apply sort_created_at_desc_ordered | reflexivity].
Qed.

Lemma sorted_app_before (l1 l2 : list Review.t) (x y : Review.t) :
  StronglySorted Sql.created_at_desc (l1 ++ x :: l2) ->
  In y l1 -> Sql.created_at_desc y x.
Proof.
  induction l1 as [|z l1 IH]; simpl; intros Hs Hin; [contradiction|].
  apply StronglySorted_inv in Hs as [Hs Hz].
  destruct Hin as [->|Hin]; [|now apply IH].
  rewrite Forall_forall in Hz. apply Hz, in_elt.
Qed.

(** In an ordered result a strictly newer row comes before an older one. *)
Lemma newer_precedes (l : list Review.t) (a b : Review.t) :
  StronglySorted Sql.created_at_desc l -> In a l -> In b l ->
  (Review.created_at a < Review.created_at b)%Z -> precedes b a l.
Proof.
  intros Hs Ha Hb Hlt.
  apply in_split in Hb as [l1 [l2 ->]].
  apply in_app_or in Ha as [Ha | [Ha | Ha]].
  - pose proof (sorted_app_before _ _ _ _ Hs Ha) as H.
    unfold Sql.created_at_desc in H. lia.
  - subst. lia.
  - apply in_split in Ha as [l3 [l4 ->]]. now exists l1, l3, l4.
Qed.

Lemma precedes_map {A B : Type} (f : A -> B) (x y : A) (l : list A) :
  precedes x y l -> precedes (f x) (f y) (map f l).
Proof.
  intros [l1 [l2 [l3 ->]]].
  exists (map f l1), (map f l2), (map f l3).
  now rewrite map_app; simpl; rewrite map_app.
Qed.

Lemma newest_first_map (rows : list Review.t) :
  StronglySorted Sql.created_at_desc rows ->
  newest_first (map dict_of_record rows).
Proof.
  unfold newest_first.
  induction 1 as [|x l Hl IH Hx]; simpl; constructor; trivial.
  rewrite Forall_map. exact Hx.
Qed.

(** *** Insertion and read-back *)

Lemma find_app_fresh {A : Type} (p : A -> bool) (l : list A) (x : A) :
  existsb p l = false -> p x = true -> find p (l ++ [x]) = Some x.
Proof.
  induction l as [|y l IH]; simpl; intros He Hx.
  - now rewrite Hx.
  - apply orb_false_iff in He as [Hy He]. rewrite Hy. now apply IH.
Qed.

Lemma analyze_sentiment_enumerated (text : str) :
  enumerated (analyze_sentiment text).
Proof.
  unfold analyze_sentiment, enumerated.
  destruct (any_word_in positive_words (lower text)); [now left|].
  destruct (any_word_in negative_words (lower text)); auto.
Qed.

Lemma encodable_analyze_sentiment (text : str) :
  Sql.encodable (analyze_sentiment text) = true.
Proof.
  destruct (analyze_sentiment_enumerated text) as [-> | [-> | ->]];
    reflexivity.
Qed.

(** The handler, case by case: a text that cannot be encoded, an exhausted
    sequence, a taken id, and the insertion followed by the read-back. *)
Lemma create_review_cases review now db :
  create_review review now db
  = if negb (Sql.encodable (ReviewRequest.text review)) then (ServerError, db)
    else if (serial_max <? reviews_id_seq db + 1)%Z then (ServerError, db)
    else if existsb (fun r => (Review.id r =? reviews_id_seq db + 1)%Z)
                    (reviews db)
    then (ServerError, mkDatabase (reviews db) (reviews_id_seq db + 1))
    else (ReviewBody (dict_of_record (new_row review now db)),
          mkDatabase (reviews db ++ [new_row review now db])
                     (reviews_id_seq db + 1)).
Proof.
  unfold create_review, Sql.insert_returning_id.
  rewrite encodable_analyze_sentiment, andb_true_r.
  destruct (negb (Sql.encodable (ReviewRequest.text review))); [reflexivity|].
  destruct (serial_max <? reviews_id_seq db + 1)%Z; [reflexivity|].
  destruct (existsb _ (reviews db)) eqn:Hdup; [reflexivity|].
  fold (new_row review now db). unfold Sql.select_by_id. simpl.
  rewrite find_app_fresh; [reflexivity | exact Hdup | simpl; apply Z.eqb_refl].
Qed.

(** What a creation that answers with a review has done. *)
Lemma create_review_inv review now db d db' :
  create_review review now db = (ReviewBody d, db') ->
  d = dict_of_record (new_row review now db)
  /\ reviews db' = reviews db ++ [new_row review now db]
  /\ reviews_id_seq db' = (reviews_id_seq db + 1)%Z
  /\ Sql.select_by_id (reviews_id_seq db + 1) db' = Some (new_row review now db).
Proof.
  rewrite create_review_cases.
  destruct (negb (Sql.encodable (ReviewRequest.text review))); [discriminate|].
  destruct (serial_max <? reviews_id_seq db + 1)%Z; [discriminate|].
  destruct (existsb _ (reviews db)) eqn:Hdup; [discriminate|].
  intros H. injection H as <- <-. simpl. repeat split.
  unfold Sql.select_by_id. simpl. apply find_app_fresh; [exact Hdup|].
  simpl. apply Z.eqb_refl.
Qed.

(** Whatever its outcome, a creation inserts at most the one new row and
    never touches the stored ones. *)
Lemma create_review_rows review now db :
  reviews (snd (create_review review now db)) = reviews db
  \/ reviews (snd (create_review review now db))
     = reviews db ++ [new_row review now db].
Proof.
  rewrite create_review_cases.
  destruct (negb (Sql.encodable (ReviewRequest.text review))); [now left|].
  destruct (serial_max <? reviews_id_seq db + 1)%Z; [now left|].
  destruct (existsb _ (reviews db)); [now left | now right].
Qed.

(** On a table fed by its sequence alone, the creation of a text that can
    be encoded succeeds until the sequence is exhausted. *)
Lemma create_review_succeeds review now db :
  ids_from_sequence db -> (reviews_id_seq db < serial_max)%Z ->
  Sql.encodable (ReviewRequest.text review) = true ->
  exists db',
    create_review review now db
    = (ReviewBody (dict_of_record (new_row review now db)), db')
    /\ ids_from_sequence db'.
Proof.
  intros Hids Hmax Henc. rewrite create_review_cases, Henc. simpl.
  destruct (serial_max <? reviews_id_seq db + 1)%Z eqn:E;
    [apply Z.ltb_lt in E; lia|].
  destruct (existsb _ (reviews db)) eqn:Hdup.
  { apply existsb_exists in Hdup as [r [Hin Hr]]. apply Z.eqb_eq in Hr.
    unfold ids_from_sequence in Hids. rewrite Forall_forall in Hids.
    specialize (Hids r Hin). lia. }
  eexists; split; [reflexivity|].
  unfold ids_from_sequence; simpl. apply Forall_app; split.
  - eapply Forall_impl; [|exact Hids]. simpl; intros; lia.
  - repeat constructor. simpl. lia.
Qed.

Lemma str_eqb_eq (a b : str) : Str.eqb a b = true <-> a = b.
Proof.
  revert b; induction a as [|x a IH]; intros [|y b]; simpl;
    try (split; [discriminate | intros H; discriminate]); [tauto|].
  rewrite andb_true_iff, N.eqb_eq, IH.
  split; [intros [-> ->]; reflexivity | intros H; injection H; auto].
Qed.

(** The filter of a listing compares whole strings. *)
Lemma sentiment_is_eq (s : str) (r : Review.t) :
  sentiment_is s r = true <-> Review.sentiment r = s.
Proof. apply str_eqb_eq. Qed.

Lemma filter_all {A : Type} (l : list A) : filter (fun _ => true) l = l.
Proof. induction l as [|x l IH]; simpl; congruence. Qed.

Lemma existsb_false_find_rev {A : Type} (p : A -> bool) (l : list A) :
  existsb p l = false -> find p (rev l) = None.
Proof.
  intros He. destruct (find p (rev l)) as [x|] eqn:Hf; [|reflexivity].
  apply find_some in Hf as [Hin Hp]. apply in_rev in Hin.
  assert (existsb p l = true) by (apply existsb_exists; eauto).
  congruence.
Qed.

Lemma post_reviews_rows body now db :
  reviews (snd (post_reviews body now db)) = reviews db
  \/ exists review,
       reviews (snd (post_reviews body now db))
       = reviews db ++ [new_row review now db].
Proof.
  unfold post_reviews. destruct (validate_ReviewRequest body) as [review|];
    simpl; [|now left].
  destruct (create_review_rows review now db); [now left|right; eauto].
Qed.

(** ** Properties of the service *)

(** C2.  Whatever the database and the submitted text, when a creation
    answers with a review, every unfiltered listing taken right after it
    contains that review, with the id, text and sentiment the creation
    returned: the submitted text and its classification. *)
Theorem create_then_list_includes_review review now db d db' out :
  create_review review now db = (ReviewBody d, db') ->
  get_reviews None db' out ->
  exists d',
    In d' out
    /\ dict_get "id" d' = dict_get "id" d
    /\ dict_get "text" d' = dict_get "text" d
    /\ dict_get "sentiment" d' = dict_get "sentiment" d
    /\ dict_get "text" d = Some (Text (ReviewRequest.text review))
    /\ dict_get "sentiment" d
       = Some (Text (analyze_sentiment (ReviewRequest.text review))).
Proof.
  intros Hc [_ [rows [[Hperm _] ->]]].
  apply create_review_inv in Hc as [-> [Hrows _]].
  exists (dict_of_record (new_row review now db)).
  repeat split; trivial.
  apply in_map. eapply Permutation_in; [exact Hperm|].
  simpl. unfold Sql.all_rows. rewrite Hrows. apply in_elt.
Qed.

(** C3 (amended).  When the sentiment parameter is present and not the empty
    string, a listing returns exactly the rows whose stored sentiment equals
    that string; when it is absent or the empty string, it returns all
    rows. *)
Theorem get_reviews_filter_nonempty sentiment db out :
  get_reviews sentiment db out ->
  match sentiment with
  | Some (c :: s) => returns_exactly (sentiment_is (c :: s)) db out
  | Some [] | None => returns_exactly (fun _ => true) db out
  end.
Proof.
  intros [_ [rows [[Hperm _] ->]]].
  destruct sentiment as [[|c s]|]; simpl in Hperm;
    exists rows; split; trivial; now rewrite ?filter_all.
Qed.

(** C5 (amended).  Every listing is ordered by [created_at], newest first;
    and when B is created after A with a timestamp strictly greater than
    A's, every unfiltered listing returns B before A, right after the two
    creations and in any later state that still holds both rows.  For equal
    timestamps the query fixes no order. *)
Theorem get_reviews_newest_first :
  (forall sentiment db out, get_reviews sentiment db out -> newest_first out)
  /\ (forall reviewA nowA db dA db1 reviewB nowB dB db2 out,
         create_review reviewA nowA db = (ReviewBody dA, db1) ->
         create_review reviewB nowB db1 = (ReviewBody dB, db2) ->
         (nowA < nowB)%Z ->
         get_reviews None db2 out ->
         precedes dB dA out)
  /\ (forall db a b out,
         In a (reviews db) -> In b (reviews db) ->
         (Review.created_at a < Review.created_at b)%Z ->
         get_reviews None db out ->
         precedes (dict_of_record b) (dict_of_record a) out).
Proof.
  split; [|split].
  - intros sentiment db out [_ [rows [[_ Hs] ->]]]. now apply newest_first_map.
  - intros reviewA nowA db dA db1 reviewB nowB dB db2 out HA HB Hlt
           [_ [rows [[Hperm Hs] ->]]].
    apply create_review_inv in HA as [-> [HrowsA _]].
    apply create_review_inv in HB as [-> [HrowsB _]].
    apply precedes_map. simpl in Hperm. unfold Sql.all_rows in Hperm.
    apply newer_precedes; trivial.
    + eapply Permutation_in; [exact Hperm|].
      rewrite HrowsB, HrowsA, <- app_assoc. apply in_elt.
    + eapply Permutation_in; [exact Hperm|]. rewrite HrowsB. apply in_elt.
  - intros db a b out Ha Hb Hlt [_ [rows [[Hperm Hs] ->]]].
    apply precedes_map. simpl in Hperm. unfold Sql.all_rows in Hperm.
    apply newer_precedes; trivial; eapply Permutation_in; eauto.
Qed.

(** C6.  A creation request whose body is malformed or lacks the field
    [text] is answered with a client error and leaves the database as it
    was: no row is inserted. *)
Theorem post_reviews_rejects_missing_text body now db :
  body = None \/ (exists j, body = Some j /\ has_member text_field j = false) ->
  post_reviews body now db = (ClientError, db)
  /\ List.length (reviews (snd (post_reviews body now db)))
     = List.length (reviews db).
Proof.
  intros Hbody.
  assert (H : post_reviews body now db = (ClientError, db)).
  { unfold post_reviews.
    destruct Hbody as [-> | [j [-> Hj]]]; [reflexivity|].
    destruct j as [| | | | |members]; try reflexivity.
    simpl in Hj. unfold validate_ReviewRequest, member.
    now rewrite existsb_false_find_rev. }
  now rewrite H.
Qed.

(** C7 (amended).  Listing with a non-empty filter value that can be
    encoded and that no stored row carries raises no error and returns the
    empty sequence, and the request is answered with the empty sequence;
    this is so in particular for every such value outside the enumeration
    once all stored sentiments are enumerated. *)
Theorem get_reviews_unrecognized_filter_empty :
  (forall s db,
      s <> [] -> Sql.encodable s = true ->
      (forall r, In r (reviews db) -> Review.sentiment r <> s) ->
      ~ get_reviews_raises (Some s) db
      /\ get_reviews (Some s) db []
      /\ (forall out, get_reviews (Some s) db out -> out = [])
      /\ (forall resp db',
             step db (GET_reviews (Some s)) resp db' ->
             resp = ReviewsBody [] /\ db' = db))
  /\ (forall s db,
         s <> [] -> Sql.encodable s = true ->
         ~ enumerated s -> sentiments_enumerated db ->
         ~ get_reviews_raises (Some s) db
         /\ get_reviews (Some s) db []
         /\ (forall out, get_reviews (Some s) db out -> out = [])
         /\ (forall resp db',
                step db (GET_reviews (Some s)) resp db' ->
                resp = ReviewsBody [] /\ db' = db)).
Proof.
  assert (H : forall s db, s <> [] -> Sql.encodable s = true ->
      (forall r, In r (reviews db) -> Review.sentiment r <> s) ->
      ~ get_reviews_raises (Some s) db
      /\ get_reviews (Some s) db []
      /\ (forall out, get_reviews (Some s) db out -> out = [])
      /\ (forall resp db',
             step db (GET_reviews (Some s)) resp db' ->
             resp = ReviewsBody [] /\ db' = db)).
  { intros s db Hs Henc Hnone.
    assert (Hok : listing_raises (Some s) = false).
    { simpl. rewrite Henc. apply andb_false_r. }
    assert (Hsel : selected (Some s) db = []).
    { destruct s as [|c s]; [congruence|]. simpl. unfold Sql.where_sentiment.
      induction (reviews db) as [|r l IH]; [reflexivity|]. simpl.
      destruct (Str.eqb (Review.sentiment r) (c :: s)) eqn:E.
      - apply str_eqb_eq in E. exfalso. apply (Hnone r); [now left | exact E].
      - apply IH. intros r' Hr'. apply Hnone. now right. }
    assert (Honly : forall out, get_reviews (Some s) db out -> out = []).
    { intros out [_ [rows [[Hperm _] ->]]]. rewrite Hsel in Hperm.
      apply Permutation_nil in Hperm. now subst. }
    assert (Hno : ~ get_reviews_raises (Some s) db).
    { unfold get_reviews_raises. rewrite Hok. discriminate. }
    split; [exact Hno|]. split; [|split; [exact Honly|]].
    - split; [exact Hok|]. exists []. rewrite Hsel. repeat split; constructor.
    - intros resp db' Hstep. inversion Hstep as [| ? ? out Hout | ? ? Hr]; subst.
      + apply Honly in Hout. subst out. now split.
      + contradiction. }
  split; [exact H|].
  intros s db Hs Henc Hout Hinv. apply H; [exact Hs | exact Henc |].
  intros r Hr <-. apply Hout.
  unfold sentiments_enumerated in Hinv. rewrite Forall_forall in Hinv.
  now apply Hinv.
Qed.

(** C8.  Every stored sentiment is one of positive, negative and neutral:
    this holds of the freshly created table, every request keeps it, and so
    it holds in every state the service reaches. *)
Theorem sentiments_enumerated_invariant :
  sentiments_enumerated (init_db None)
  /\ (forall db req resp db',
         sentiments_enumerated db -> step db req resp db' ->
         sentiments_enumerated db')
  /\ (forall db, reachable db -> sentiments_enumerated db).
Proof.
  assert (Hinit : sentiments_enumerated (init_db None)) by constructor.
  assert (Hstep : forall db req resp db',
             sentiments_enumerated db -> step db req resp db' ->
             sentiments_enumerated db').
  { intros db req resp db' Hinv Hs.
    destruct Hs as [body now db | s db out _ | s db _];
      [|exact Hinv|exact Hinv].
    unfold sentiments_enumerated in *.
    destruct (post_reviews_rows body now db) as [-> | [review ->]]; trivial.
    apply Forall_app; split; trivial.
    constructor; [|constructor]. simpl. apply analyze_sentiment_enumerated. }
  repeat split; trivial.
  induction 1; eauto.
Qed.

(** Each row a run of creation requests adds was inserted by one request
    of the run, which returned it. *)
Lemma create_all_creator requests : forall db r,
  In r (reviews (create_all requests db)) ->
  In r (reviews db)
  \/ exists before review now after,
       requests = before ++ (review, now) :: after
       /\ fst (create_review review now (create_all before db))
          = ReviewBody (dict_of_record r)
       /\ reviews (snd (create_review review now (create_all before db)))
          = reviews (create_all before db) ++ [r]
       /\ Review.text r = ReviewRequest.text review.
Proof.
  induction requests as [|[review0 now0] rest IH]; simpl; intros db r Hin;
    [now left|].
  apply IH in Hin as [Hin | (before & review & now & after & -> & Hc & Hr & Ht)].
  - pose proof (create_review_cases review0 now0 db) as E.
    destruct (negb (Sql.encodable (ReviewRequest.text review0)));
      [rewrite E in Hin; now left|].
    destruct (serial_max <? reviews_id_seq db + 1)%Z;
      [rewrite E in Hin; now left|].
    destruct (existsb _ (reviews db)); [rewrite E in Hin; now left|].
    rewrite E in Hin. simpl in Hin.
    apply in_app_or in Hin as [Hin | [<- | []]]; [now left|].
    right. exists [], review0, now0, rest. simpl. rewrite E. now repeat split.
  - right. exists ((review0, now0) :: before), review, now, after.
    simpl. now repeat split.
Qed.

(** C9 (amended).  After any sequence of creation requests on a fresh table,
    every persisted review was inserted by one request of the sequence,
    which returned it, and its text is the text that request submitted,
    kept as it was submitted; it may be the empty string. *)
Theorem persisted_text_is_submitted requests r :
  In r (reviews (create_all requests empty_database)) ->
  exists before review now after,
    requests = before ++ (review, now) :: after
    /\ fst (create_review review now (create_all before empty_database))
       = ReviewBody (dict_of_record r)
    /\ reviews (snd (create_review review now
                       (create_all before empty_database)))
       = reviews (create_all before empty_database) ++ [r]
    /\ Review.text r = ReviewRequest.text review.
Proof.
  intros Hin. apply create_all_creator in Hin as [[] | H]. exact H.
Qed.

(** C10.  A listing whose sentiment parameter is the empty string has
    exactly the results of a listing without the parameter.  It does not
    raise, it has a result, and each of its results holds every stored row
    once, with the four columns of the row: all rows, not the rows whose
    sentiment is the empty string. *)
Theorem get_reviews_empty_string_as_absent db out :
  (get_reviews (Some []) db out <-> get_reviews None db out)
  /\ (get_reviews (Some []) db out ->
      Permutation out (map dict_of_record (reviews db))
      /\ List.length out = List.length (reviews db)
      /\ forall r, In r (reviews db) ->
           exists d,
             In d out
             /\ dict_get "id" d = Some (Int (Review.id r))
             /\ dict_get "text" d = Some (Text (Review.text r))
             /\ dict_get "sentiment" d = Some (Text (Review.sentiment r))
             /\ dict_get "created_at" d
                = Some (Datetime (Review.created_at r)))
  /\ ~ get_reviews_raises (Some []) db
  /\ get_reviews (Some []) db (get_reviews_stable None db).
Proof.
  split; [reflexivity|]. split; [|split].
  - intros [_ [rows [[Hperm _] ->]]]. simpl in Hperm.
    unfold Sql.all_rows in Hperm.
    assert (Hp : Permutation (map dict_of_record rows)
                   (map dict_of_record (reviews db)))
      by (apply Permutation_map; now symmetry).
    split; [exact Hp|]. split.
    + rewrite (Permutation_length Hp). now rewrite !length_map.
    + intros r Hr. exists (dict_of_record r).
      split; [|now repeat split].
      apply in_map. eapply Permutation_in; eauto.
  - unfold get_reviews_raises. simpl. discriminate.
  - apply (get_reviews_stable_sound None db). reflexivity.
Qed.

(** What a successful creation returns: the row read back by the assigned
    id, with [created_at] still the timestamp value, not a string. *)
Lemma create_review_returns_row_read_back review now db d db' :
  create_review review now db = (ReviewBody d, db') ->
  exists row,
    Sql.select_by_id (reviews_id_seq db') db' = Some row
    /\ d = dict_of_record row
    /\ In row (reviews db')
    /\ dict_get "created_at" d = Some (Datetime now)
    /\ instance_of ReviewResponse d = false.
Proof.
  intros Hc. apply create_review_inv in Hc as [-> [Hrows [Hseq Hsel]]].
  exists (new_row review now db). rewrite Hseq, Hrows.
  repeat split; trivial. apply in_elt.
Qed.

(** ** Further properties of the classifier *)

Lemma contains_length (sub s : str) :
  Str.contains sub s = true -> (List.length sub <= List.length s)%nat.
Proof.
  intros H. apply contains_substring in H as [pre [post ->]].
  rewrite !length_app. lia.
Qed.

(** X1.  The answer of the classifier tells which keywords occur: positive
    exactly when a positive keyword occurs in the lowered text, negative
    exactly when a negative keyword occurs and no positive one, neutral
    exactly when none occurs. *)
Theorem analyze_sentiment_cases (text : str) :
  (analyze_sentiment text = positive <-> has_keyword positive_words text)
  /\ (analyze_sentiment text = negative <->
      ~ has_keyword positive_words text /\ has_keyword negative_words text)
  /\ (analyze_sentiment text = neutral <->
      ~ has_keyword positive_words text /\ ~ has_keyword negative_words text).
Proof.
  rewrite <- !any_word_in_has_keyword. unfold analyze_sentiment.
  destruct (any_word_in positive_words (lower text));
    destruct (any_word_in negative_words (lower text));
    repeat split; try discriminate; try congruence;
    intros [? ?]; congruence.
Qed.

(** X2.  No keyword is shorter than five code points, so a text whose
    lowering has fewer than five code points is neutral. *)
Theorem analyze_sentiment_short_neutral (text : str) :
  (List.length (lower text) < 5)%nat -> analyze_sentiment text = neutral.
Proof.
  intros Hlen.
  assert (Hno : forall words,
             Forall (fun w => (5 <= List.length w)%nat) words ->
             any_word_in words (lower text) = false).
  { intros words Hw. unfold any_word_in.
    destruct (existsb (fun word => Str.contains word (lower text)) words)
      eqn:E; [|reflexivity].
    apply existsb_exists in E as [w [Hin Hc]].
    apply contains_length in Hc. rewrite Forall_forall in Hw.
    specialize (Hw w Hin). lia. }
  unfold analyze_sentiment.
  rewrite !Hno; [reflexivity | |]; repeat constructor; simpl; lia.
Qed.

(** ** Further properties of creation *)

Lemma existsb_id_false (rows : list Review.t) (n : Z) :
  existsb (fun r => (Review.id r =? n)%Z) rows = false ->
  ~ In n (map Review.id rows).
Proof.
  intros He Hin. apply in_map_iff in Hin as [r [Hid Hr]].
  assert (existsb (fun r => (Review.id r =? n)%Z) rows = true).
  { apply existsb_exists. exists r. split; [exact Hr | now apply Z.eqb_eq]. }
  congruence.
Qed.

(** The two outcomes of a creation, whatever the database. *)
Lemma create_review_outcome review now db :
  (create_review review now db
   = (ReviewBody (dict_of_record (new_row review now db)),
      mkDatabase (reviews db ++ [new_row review now db])
                 (reviews_id_seq db + 1))
   /\ ~ In (reviews_id_seq db + 1) (map Review.id (reviews db))
   /\ reviews_id_seq db < serial_max)
  \/ (exists db', create_review review now db = (ServerError, db')
                  /\ reviews db' = reviews db
                  /\ (reviews_id_seq db' = reviews_id_seq db
                      \/ reviews_id_seq db' = reviews_id_seq db + 1)).
Proof.
  rewrite create_review_cases.
  destruct (negb (Sql.encodable (ReviewRequest.text review))).
  { right. eexists. repeat split. now left. }
  destruct (serial_max <? reviews_id_seq db + 1)%Z eqn:Emax.
  { right. eexists. repeat split. now left. }
  destruct (existsb _ (reviews db)) eqn:Hdup.
  { right. eexists. repeat split. now right. }
  left. apply Z.ltb_ge in Emax.
  split; [reflexivity|]. split; [now apply existsb_id_false | lia].
Qed.

(** X3.  The handler either returns the new review, having appended exactly
    its row, or raises, having left every row as it was.  The review it
    returns is no instance of the declared response model, so a request
    with a valid body is answered with a server error in both cases, also
    when its row was stored. *)
Theorem create_review_stores_or_raises review now db :
  ((fst (create_review review now db)
    = ReviewBody (dict_of_record (new_row review now db))
    /\ reviews (snd (create_review review now db))
       = reviews db ++ [new_row review now db])
   \/ (fst (create_review review now db) = ServerError
       /\ reviews (snd (create_review review now db)) = reviews db))
  /\ (forall body,
         validate_ReviewRequest body = Some review ->
         fst (post_reviews body now db) = ServerError
         /\ snd (post_reviews body now db)
            = snd (create_review review now db)).
Proof.
  split.
  - destruct (create_review_outcome review now db)
      as [[-> _] | [db' [-> [Hrows _]]]]; [left | right]; simpl; auto.
  - intros body Hbody. unfold post_reviews. rewrite Hbody. simpl.
    split; [|reflexivity].
    destruct (create_review_outcome review now db)
      as [[-> _] | [db' [-> _]]]; reflexivity.
Qed.

Lemma create_review_unique_ids review now db :
  unique_ids db -> unique_ids (snd (create_review review now db)).
Proof.
  unfold unique_ids. intros Hu.
  destruct (create_review_outcome review now db)
    as [[-> [Hfresh _]] | [db' [-> [Hrows _]]]]; simpl;
    [|rewrite Hrows; exact Hu].
  rewrite map_app. simpl. apply NoDup_app; trivial.
  - repeat constructor. intros [].
  - intros a Ha [<- | []]. contradiction.
Qed.

(** X4.  Ids stay unique: after any run of creation requests, successful
    or not, no two rows of the table share an id if none did before. *)
Theorem create_all_unique_ids requests : forall db,
  unique_ids db -> unique_ids (create_all requests db).
Proof.
  induction requests as [|[review now] rest IH]; simpl; intros db Hu;
    [exact Hu|].
  apply IH. now apply create_review_unique_ids.
Qed.

(** On a table fed by its sequence alone the id check never fails. *)
Lemma create_review_sequence_fed review now db :
  ids_from_sequence db ->
  create_review review now db
  = (if Sql.encodable (ReviewRequest.text review)
        && (reviews_id_seq db <? serial_max)%Z
     then (ReviewBody (dict_of_record (new_row review now db)),
           mkDatabase (reviews db ++ [new_row review now db])
                      (reviews_id_seq db + 1))
     else (ServerError, db)).
Proof.
  intros Hids. rewrite create_review_cases.
  destruct (Sql.encodable (ReviewRequest.text review)); [simpl|reflexivity].
  destruct (serial_max <? reviews_id_seq db + 1)%Z eqn:Emax.
  - apply Z.ltb_lt in Emax.
    destruct (reviews_id_seq db <? serial_max)%Z eqn:E;
      [apply Z.ltb_lt in E; lia | reflexivity].
  - apply Z.ltb_ge in Emax.
    destruct (reviews_id_seq db <? serial_max)%Z eqn:E;
      [|apply Z.ltb_ge in E; lia].
    destruct (existsb _ (reviews db)) eqn:Hdup; [|reflexivity].
    apply existsb_exists in Hdup as [r [Hin Hr]]. apply Z.eqb_eq in Hr.
    unfold ids_from_sequence in Hids. rewrite Forall_forall in Hids.
    specialize (Hids r Hin). lia.
Qed.

(** X5.  On a table whose ids all come from its sequence, a creation fails
    exactly when the text cannot be encoded or the sequence is exhausted,
    and then changes nothing; otherwise it inserts the new row under the
    next id and returns it.  Either way the ids still come from the
    sequence. *)
Theorem create_review_on_sequence_fed review now db :
  ids_from_sequence db ->
  create_review review now db
  = (if Sql.encodable (ReviewRequest.text review)
        && (reviews_id_seq db <? serial_max)%Z
     then (ReviewBody (dict_of_record (new_row review now db)),
           mkDatabase (reviews db ++ [new_row review now db])
                      (reviews_id_seq db + 1))
     else (ServerError, db))
  /\ ids_from_sequence (snd (create_review review now db)).
Proof.
  intros Hids. rewrite (create_review_sequence_fed _ _ _ Hids).
  split; [reflexivity|].
  destruct (Sql.encodable (ReviewRequest.text review)
            && (reviews_id_seq db <? serial_max)%Z); [|exact Hids].
  unfold ids_from_sequence; simpl. apply Forall_app; split.
  - eapply Forall_impl; [|exact Hids]. simpl; intros; lia.
  - constructor; [simpl; lia | constructor].
Qed.

Lemma find_by_unique_id (rows : list Review.t) (r : Review.t) :
  NoDup (map Review.id rows) -> In r rows ->
  find (fun x => (Review.id x =? Review.id r)%Z) rows = Some r.
Proof.
  induction rows as [|x rows IH]; simpl; intros Hu Hin; [contradiction|].
  apply NoDup_cons_iff in Hu as [Hx Hu].
  destruct Hin as [-> | Hin]; [now rewrite Z.eqb_refl|].
  destruct (Review.id x =? Review.id r)%Z eqn:E; [|now apply IH].
  apply Z.eqb_eq in E. exfalso. apply Hx. rewrite E. now apply in_map.
Qed.

(** X6.  With unique ids, looking a stored row up by its id returns that
    very row, and it still does after a further creation request,
    whatever the outcome of that request. *)
Theorem select_by_id_stored review now db r :
  unique_ids db -> In r (reviews db) ->
  Sql.select_by_id (Review.id r) db = Some r
  /\ Sql.select_by_id (Review.id r) (snd (create_review review now db))
     = Some r.
Proof.
  intros Hu Hin. split; [now apply find_by_unique_id|].
  apply find_by_unique_id; [now apply create_review_unique_ids|].
  destruct (create_review_rows review now db) as [-> | ->]; trivial.
  apply in_or_app. now left.
Qed.

Lemma create_all_rows requests : forall db,
  ids_from_sequence db ->
  reviews_id_seq db + Z.of_nat (List.length (accepted requests))
  <= serial_max ->
  create_all requests db
  = mkDatabase (reviews db ++ rows_of (accepted requests) (reviews_id_seq db))
               (reviews_id_seq db
                + Z.of_nat (List.length (accepted requests))).
Proof.
  induction requests as [|[review now] rest IH]; intros db Hids Hroom.
  - simpl. rewrite app_nil_r, Z.add_0_r. now destruct db.
  - cbn [create_all]. rewrite (create_review_sequence_fed _ _ _ Hids).
    unfold accepted in *. cbn [filter fst] in *.
    destruct (Sql.encodable (ReviewRequest.text review)); cbn [andb].
    + cbn [List.length] in Hroom.
      destruct (reviews_id_seq db <? serial_max)%Z eqn:E;
        [|apply Z.ltb_ge in E; lia].
      cbn [snd]. rewrite IH.
      * cbn [reviews reviews_id_seq rows_of List.length].
        rewrite <- app_assoc. simpl. f_equal. lia.
      * unfold ids_from_sequence; simpl. apply Forall_app; split.
        -- eapply Forall_impl; [|exact Hids]. simpl; intros; lia.
        -- constructor; [simpl; lia | constructor].
      * simpl. lia.
    + cbn [snd]. now apply IH.
Qed.

Lemma rows_of_ids requests : forall k,
  map Review.id (rows_of requests k)
  = map (fun i => k + Z.of_nat i) (List.seq 1 (List.length requests)).
Proof.
  induction requests as [|[review now] rest IH]; intros k; [reflexivity|].
  cbn [rows_of List.length List.seq map Review.id]. f_equal; try lia.
  rewrite <- (seq_shift (List.length rest) 1), IH, map_map.
  apply map_ext. intros i. lia.
Qed.

Lemma rows_of_columns requests : forall k,
  map Review.text (rows_of requests k)
  = map (fun rq => ReviewRequest.text (fst rq)) requests
  /\ map Review.sentiment (rows_of requests k)
     = map (fun rq => analyze_sentiment (ReviewRequest.text (fst rq))) requests
  /\ map Review.created_at (rows_of requests k) = map snd requests.
Proof.
  induction requests as [|[review now] rest IH]; intros k;
    [now repeat split|].
  destruct (IH (k + 1)) as [Ht [Hs Hc]]. simpl.
  now rewrite Ht, Hs, Hc.
Qed.

(** X7.  On a fresh table, a run of creation requests stores one row for
    each request whose text can be encoded and none for the others, in the
    order of the requests, as long as these requests are no more than the
    largest id: the ids are 1, 2, ..., the texts are the submitted texts,
    the sentiments their classifications and the timestamps the clock
    readings. *)
Theorem create_all_on_fresh_table requests :
  Z.of_nat (List.length (accepted requests)) <= serial_max ->
  map Review.id (reviews (create_all requests empty_database))
  = map Z.of_nat (List.seq 1 (List.length (accepted requests)))
  /\ map Review.text (reviews (create_all requests empty_database))
     = map (fun rq => ReviewRequest.text (fst rq)) (accepted requests)
  /\ map Review.sentiment (reviews (create_all requests empty_database))
     = map (fun rq => analyze_sentiment (ReviewRequest.text (fst rq)))
           (accepted requests)
  /\ map Review.created_at (reviews (create_all requests empty_database))
     = map snd (accepted requests).
Proof.
  intros Hroom.
  rewrite create_all_rows; [|constructor|simpl; lia]. simpl.
  split; [apply rows_of_ids | apply rows_of_columns].
Qed.

(** X8.  The stored sentiment is always the classification of the stored
    text: a run of creation requests, successful or not, keeps this true of
    every row. *)
Theorem stored_sentiment_is_classification requests : forall db,
  Forall (fun r => Review.sentiment r = analyze_sentiment (Review.text r))
         (reviews db) ->
  Forall (fun r => Review.sentiment r = analyze_sentiment (Review.text r))
         (reviews (create_all requests db)).
Proof.
  induction requests as [|[review now] rest IH]; simpl; intros db Hinv;
    [exact Hinv|].
  apply IH.
  destruct (create_review_rows review now db) as [-> | ->]; trivial.
  apply Forall_app; split; trivial. now repeat constructor.
Qed.

(** ** Further properties of listings *)

Lemma dict_of_record_inj (r1 r2 : Review.t) :
  dict_of_record r1 = dict_of_record r2 -> r1 = r2.
Proof.
  destruct r1, r2. unfold dict_of_record. simpl. intros H.
  injection H as -> -> -> ->. reflexivity.
Qed.

Lemma truthy_analyze_sentiment (text : str) :
  Str.truthy (analyze_sentiment text) = true.
Proof.
  destruct (analyze_sentiment_enumerated text) as [-> | [-> | ->]];
    reflexivity.
Qed.

(** The three filters split a table with enumerated sentiments. *)
Lemma filters_split (rows : list Review.t) :
  Forall (fun r => enumerated (Review.sentiment r)) rows ->
  Permutation
    (filter (sentiment_is positive) rows
     ++ filter (sentiment_is negative) rows
     ++ filter (sentiment_is neutral) rows) rows.
Proof.
  induction 1 as [|r rows Hr _ IH]; [constructor|].
  unfold sentiment_is in *. simpl.
  destruct Hr as [-> | [-> | ->]]; simpl.
  - now apply perm_skip.
  - symmetry. apply Permutation_cons_app. now symmetry.
  - rewrite app_assoc. symmetry. apply Permutation_cons_app.
    rewrite <- app_assoc. now symmetry.
Qed.

(** X10.  Once all stored sentiments are enumerated, the listings under the
    three filters positive, negative and neutral together hold every entry
    of the unfiltered listing exactly once. *)
Theorem filtered_listings_partition db out_pos out_neg out_neu out_all :
  sentiments_enumerated db ->
  get_reviews (Some positive) db out_pos ->
  get_reviews (Some negative) db out_neg ->
  get_reviews (Some neutral) db out_neu ->
  get_reviews None db out_all ->
  Permutation (out_pos ++ out_neg ++ out_neu) out_all.
Proof.
  intros Hinv [_ [rp [[Hp _] ->]]] [_ [rn [[Hn _] ->]]] [_ [ru [[Hu _] ->]]]
         [_ [ra [[Ha _] ->]]].
  rewrite <- !map_app. apply Permutation_map.
  rewrite <- Hp, <- Hn, <- Hu, <- Ha. apply (filters_split _ Hinv).
Qed.

(** Selecting rows keeps their timestamps distinct. *)
Lemma filter_distinct_timestamps (p : Review.t -> bool) (rows : list Review.t) :
  NoDup (map Review.created_at rows) ->
  NoDup (map Review.created_at (filter p rows)).
Proof.
  induction rows as [|x rows IH]; simpl; intros Hrows; [constructor|].
  apply NoDup_cons_iff in Hrows as [Hx Hrows].
  destruct (p x); simpl; [|now apply IH].
  constructor; [|now apply IH].
  intros Hin. apply Hx. apply in_map_iff in Hin as [y [Hy Hin]].
  apply filter_In in Hin as [Hin _]. rewrite <- Hy. now apply in_map.
Qed.

(** Rows with pairwise distinct timestamps have one ordering only. *)
Lemma ordered_unique (l1 : list Review.t) : forall l2,
  NoDup (map Review.created_at l1) ->
  StronglySorted Sql.created_at_desc l1 ->
  StronglySorted Sql.created_at_desc l2 ->
  Permutation l1 l2 -> l1 = l2.
Proof.
  induction l1 as [|a l1 IH]; intros l2 Hnd H1 H2 Hp.
  - now apply Permutation_nil in Hp.
  - destruct l2 as [|b l2].
    { apply Permutation_sym, Permutation_nil in Hp. discriminate. }
    apply NoDup_cons_iff in Hnd as [Ha Hnd].
    apply StronglySorted_inv in H1 as [H1 Hall1].
    apply StronglySorted_inv in H2 as [H2 Hall2].
    assert (Hab : a = b).
    { destruct (Permutation_in a Hp (or_introl eq_refl)) as [E | Hin2];
        [now symmetry|].
      destruct (Permutation_in b (Permutation_sym Hp) (or_introl eq_refl))
        as [E | Hin1]; [exact E|].
      rewrite Forall_forall in Hall1, Hall2.
      specialize (Hall1 b Hin1). specialize (Hall2 a Hin2).
      unfold Sql.created_at_desc in *. exfalso. apply Ha.
      replace (Review.created_at a) with (Review.created_at b) by lia.
      now apply in_map. }
    subst b. f_equal.
    apply IH; trivial. now apply Permutation_cons_inv in Hp.
Qed.

Lemma get_reviews_unique sentiment db out :
  NoDup (map Review.created_at (selected sentiment db)) ->
  get_reviews sentiment db out -> out = get_reviews_stable sentiment db.
Proof.
  intros Hnd [_ [rows [[Hperm Hs] ->]]]. unfold get_reviews_stable. f_equal.
  destruct (sort_created_at_desc_ordered (selected sentiment db))
    as [Hperm' Hs'].
  apply ordered_unique; trivial.
  - eapply Permutation_NoDup; [|exact Hnd]. now apply Permutation_map.
  - now rewrite <- Hperm.
Qed.


Lemma insert_desc_oldest (a : Review.t) (l : list Review.t) :
  Forall (fun x => Review.created_at a < Review.created_at x) l ->
  Sql.insert_desc a l = l ++ [a].
Proof.
  induction 1 as [|x l Hx _ IH]; simpl; [reflexivity|].
  destruct (Review.created_at x <=? Review.created_at a)%Z eqn:E;
    [apply Z.leb_le in E; lia | now rewrite IH].
Qed.

Lemma sort_increasing (l : list Review.t) :
  StronglySorted
    (fun a b => Review.created_at a < Review.created_at b) l ->
  Sql.sort_created_at_desc l = rev l
  /\ NoDup (map Review.created_at l).
Proof.
  induction 1 as [|a l _ [IHs IHn] Ha]; simpl; [split; constructor|].
  split.
  - rewrite IHs. apply insert_desc_oldest. now apply Forall_rev.
  - constructor; [|exact IHn].
    intros Hin. apply in_map_iff in Hin as [x [Hx Hin]].
    rewrite Forall_forall in Ha. specialize (Ha x Hin). lia.
Qed.

(** X12.  When the timestamps strictly increase in the order of insertion,
    the unfiltered listing is exactly the table in reverse order of
    insertion: the last review created comes first. *)
Theorem get_reviews_reverse_insertion_order db out :
  clock_increasing db ->
  (get_reviews None db out <-> out = map dict_of_record (rev (reviews db))).
Proof.
  intros Hinc. destruct (sort_increasing _ Hinc) as [Hsort Hnd].
  assert (Hst : get_reviews_stable None db
                = map dict_of_record (rev (reviews db))).
  { unfold get_reviews_stable. simpl. unfold Sql.all_rows. now rewrite Hsort. }
  split.
  - intros H. rewrite <- Hst. now apply get_reviews_unique.
  - intros ->. rewrite <- Hst. now apply get_reviews_stable_sound.
Qed.

(** X13.  A review that was just created is listed under the filter equal
    to its sentiment and under no other non-empty filter. *)
Theorem created_review_under_filters review now db d db' :
  create_review review now db = (ReviewBody d, db') ->
  (forall out,
      get_reviews (Some (analyze_sentiment (ReviewRequest.text review)))
                  db' out ->
      In d out)
  /\ (forall s out,
         s <> [] -> s <> analyze_sentiment (ReviewRequest.text review) ->
         get_reviews (Some s) db' out -> ~ In d out).
Proof.
  intros Hc. apply create_review_inv in Hc as [-> [Hrows _]]. split.
  - intros out [_ [rows [[Hperm _] ->]]]. apply in_map.
    eapply Permutation_in; [exact Hperm|].
    simpl. rewrite truthy_analyze_sentiment.
    apply filter_In. split; [rewrite Hrows; apply in_elt|].
    now apply str_eqb_eq.
  - intros s out Hs Hne [_ [rows [[Hperm _] ->]]] Hin.
    apply in_map_iff in Hin as [r [Hr Hin]].
    apply dict_of_record_inj in Hr. subst r.
    apply Permutation_sym in Hperm.
    apply (Permutation_in _ Hperm) in Hin.
    destruct s as [|c s]; [congruence|]. simpl in Hin.
    apply filter_In in Hin as [_ Hin]. apply str_eqb_eq in Hin.
    apply Hne. now rewrite <- Hin.
Qed.

(** X14.  A successful creation adds exactly its review to the unfiltered
    listing: a listing taken after it holds the new review and the entries
    of a listing taken before it, each once. *)
Theorem listing_grows_by_created_review review now db d db' out out' :
  create_review review now db = (ReviewBody d, db') ->
  get_reviews None db out ->
  get_reviews None db' out' ->
  Permutation out' (d :: out).
Proof.
  intros Hc [_ [rows [[Hperm _] ->]]] [_ [rows' [[Hperm' _] ->]]].
  apply create_review_inv in Hc as [-> [Hrows _]].
  simpl in Hperm, Hperm'. unfold Sql.all_rows in *.
  change (Permutation (map dict_of_record rows')
            (map dict_of_record (new_row review now db :: rows))).
  apply Permutation_map.
  rewrite <- Hperm', Hrows, <- Hperm.
  symmetry. apply Permutation_cons_append.
Qed.

(** X15.  Every entry of a listing carries the four columns of its row: an
    integer id, the text and the sentiment as strings, and [created_at] as
    the timestamp value itself; so no entry is an instance of the declared
    [ReviewResponse], whose [created_at] is a string. *)
Theorem listed_entries_carry_timestamps sentiment db out d :
  get_reviews sentiment db out -> In d out ->
  (exists n s1 s2 t,
      dict_get "id" d = Some (Int n)
      /\ dict_get "text" d = Some (Text s1)
      /\ dict_get "sentiment" d = Some (Text s2)
      /\ dict_get "created_at" d = Some (Datetime t))
  /\ instance_of ReviewResponse d = false.
Proof.
  intros [_ [rows [_ ->]]] Hin. apply in_map_iff in Hin as [r [<- _]].
  split; [|reflexivity].
  exists (Review.id r), (Review.text r), (Review.sentiment r),
    (Review.created_at r).
  now repeat split.
Qed.

(** X16.  On a table whose ids all come from its sequence, the id a
    successful creation returns is the next value of the sequence and is
    greater than the id of every review stored before. *)
Theorem created_id_exceeds_stored review now db d db' :
  ids_from_sequence db ->
  create_review review now db = (ReviewBody d, db') ->
  dict_get "id" d = Some (Int (reviews_id_seq db + 1))
  /\ forall r, In r (reviews db) -> Review.id r < reviews_id_seq db + 1.
Proof.
  intros Hids Hc. apply create_review_inv in Hc as [-> _].
  split; [reflexivity|]. intros r Hin.
  unfold ids_from_sequence in Hids. rewrite Forall_forall in Hids.
  specialize (Hids r Hin). lia.
Qed.

Lemma filter_sorted (p : Review.t -> bool) (l : list Review.t) :
  StronglySorted Sql.created_at_desc l ->
  StronglySorted Sql.created_at_desc (filter p l).
Proof.
  induction 1 as [|x l _ IH Hx]; simpl; [constructor|].
  destruct (p x); [|exact IH]. constructor; [exact IH|].
  rewrite Forall_forall in *. intros y Hy. apply Hx.
  now apply filter_In in Hy as [Hy _].
Qed.

Lemma filter_perm {A : Type} (p : A -> bool) (l1 l2 : list A) :
  Permutation l1 l2 -> Permutation (filter p l1) (filter p l2).
Proof.
  induction 1 as [|x l1 l2 _ IH|x y l|l1 l2 l3 _ IH1 _ IH2]; simpl.
  - constructor.
  - destruct (p x); [now apply perm_skip | exact IH].
  - destruct (p x), (p y); try reflexivity. apply perm_swap.
  - now transitivity (filter p l2).
Qed.

Lemma filter_entries (s : str) (rows : list Review.t) :
  filter (entry_has_sentiment s) (map dict_of_record rows)
  = map dict_of_record (filter (sentiment_is s) rows).
Proof.
  induction rows as [|r rows IH]; simpl; [reflexivity|].
  unfold entry_has_sentiment at 1. simpl. fold (sentiment_is s r).
  destruct (sentiment_is s r); simpl; now rewrite IH.
Qed.

(** X17.  When no two rows share a timestamp, filtering on the server and
    filtering the unfiltered listing afterwards agree: the listing under a
    non-empty filter is the unfiltered listing with the entries of other
    sentiments removed, in the same order. *)
Theorem filtered_listing_is_filtered_full_listing s db out out_all :
  distinct_timestamps db -> s <> [] ->
  get_reviews (Some s) db out ->
  get_reviews None db out_all ->
  out = filter (entry_has_sentiment s) out_all.
Proof.
  intros Hd Hs [_ [rows [[Hperm Hsorted] ->]]] [_ [rows_all [[Hperm' Hsorted'] ->]]].
  rewrite filter_entries. f_equal.
  destruct s as [|c s]; [congruence|]. simpl in Hperm, Hperm'.
  unfold Sql.where_sentiment, Sql.all_rows in *.
  fold (sentiment_is (c :: s)) in Hperm.
  apply ordered_unique; trivial.
  - eapply Permutation_NoDup; [apply Permutation_map; exact Hperm|].
    now apply filter_distinct_timestamps.
  - now apply filter_sorted.
  - rewrite <- Hperm. now apply filter_perm.
Qed.

(** X18.  What a client gets from [GET /reviews]: the empty sequence when
    the query selects no row; a server error when it selects at least one
    row, because no entry is an instance of the declared response model,
    and when the query raises.  The database is left as it was. *)
Theorem get_reviews_endpoint_answer sentiment db resp db' :
  step db (GET_reviews sentiment) resp db' ->
  db' = db
  /\ ((resp = ReviewsBody []
       /\ listing_raises sentiment = false /\ selected sentiment db = [])
      \/ (resp = ServerError
          /\ (listing_raises sentiment = true \/ selected sentiment db <> []))).
Proof.
  intros Hstep.
  inversion Hstep as [| ? ? out [Hok [rows [[Hperm _] ->]]] | ? ? Hr]; subst.
  - split; [reflexivity|]. destruct rows as [|r rows].
    + left. apply Permutation_sym, Permutation_nil in Hperm. now repeat split.
    + right. split; [reflexivity|]. right. intros Hsel.
      rewrite Hsel in Hperm. apply Permutation_nil in Hperm. discriminate.
  - split; [reflexivity|]. right. split; [reflexivity | now left].
Qed.

End App.

(** ** The classifier and the handlers on concrete inputs *)

Example classify_positive :
  analyze_sentiment Str.lower_basic (Str.lit "я люблю этот продукт") = positive.
Proof. reflexivity. Qed.

Example classify_negative :
  analyze_sentiment Str.lower_basic (Str.lit "это было ужасно, ненавижу")
  = negative.
Proof. reflexivity. Qed.

Example classify_neutral :
  analyze_sentiment Str.lower_basic (Str.lit "обычный день") = neutral.
Proof. reflexivity. Qed.

Example classify_mixed_case_both :
  analyze_sentiment Str.lower_basic (Str.lit "ПЛОХО, но Хорошо") = positive.
Proof. reflexivity. Qed.

Example create_A :
  create_review Str.lower_basic Sample.empty_text 0 empty_database
  = (ReviewBody (dict_of_record Sample.rowA), Sample.db_A).
Proof. reflexivity. Qed.

Example create_B :
  create_review Str.lower_basic Sample.good 0 Sample.db_A
  = (ReviewBody (dict_of_record Sample.rowB), Sample.db_AB).
Proof. reflexivity. Qed.

Example create_B_later :
  create_review Str.lower_basic Sample.good 1 Sample.db_A
  = (ReviewBody (dict_of_record Sample.rowB_later), Sample.db_AB_later).
Proof. reflexivity. Qed.

(** A taken id makes the insertion fail and still consumes the sequence
    value; an exhausted sequence fails at once. *)
Example create_duplicate_key :
  create_review Str.lower_basic Sample.good 0 (mkDatabase [Sample.rowA] 0)
  = (ServerError, mkDatabase [Sample.rowA] 1).
Proof. reflexivity. Qed.

Example create_sequence_exhausted :
  create_review Str.lower_basic Sample.good 0 (mkDatabase [] serial_max)
  = (ServerError, mkDatabase [] serial_max).
Proof. reflexivity. Qed.

(** A text that holds code point 0 is not inserted, and a filter that holds
    it makes the listing raise. *)
Example create_nul_text :
  create_review Str.lower_basic (ReviewRequest.mk Sample.nul) 0 Sample.db_A
  = (ServerError, Sample.db_A).
Proof. reflexivity. Qed.

Example list_nul_filter :
  get_reviews_run (Some Sample.nul) Sample.db_A = None.
Proof. reflexivity. Qed.

(** The endpoint stores B and answers with a server error. *)
Example post_B :
  post_reviews Str.lower_basic
    (Some (JObject [(text_field, JString Sample.good_text)])) 0 Sample.db_A
  = (ServerError, Sample.db_AB).
Proof. reflexivity. Qed.

Lemma singleton_listing (sentiment : option str) (db : Database) (r : Review.t) :
  listing_raises sentiment = false ->
  selected sentiment db = [r] ->
  forall out, get_reviews sentiment db out <-> out = [dict_of_record r].
Proof.
  intros Hok Hsel out. split.
  - intros [_ [rows [[Hperm _] ->]]]. rewrite Hsel in Hperm.
    apply Permutation_length_1_inv in Hperm. now subst.
  - intros ->. split; [exact Hok|]. exists [r]. rewrite Hsel.
    repeat split; repeat constructor.
Qed.

(** C1, on a concrete lowering: the empty string, a text with keywords of
    both kinds, a text with a negative keyword only and a text with none. *)
Lemma analyze_sentiment_spec_witness :
  Str.lower_basic [] = []
  /\ analyze_sentiment Str.lower_basic [] = neutral
  /\ analyze_sentiment Str.lower_basic (Str.lit "ПЛОХО, но Хорошо") = positive
  /\ analyze_sentiment Str.lower_basic (Str.lit "Ненавижу") = negative
  /\ analyze_sentiment Str.lower_basic (Str.lit "обычный день") = neutral.
Proof.
  pose proof (analyze_sentiment_spec Str.lower_basic) as [H3 [Hboth Hnil]].
  assert (Hno : forall words text,
             any_word_in words (Str.lower_basic text) = false ->
             ~ has_keyword Str.lower_basic words text).
  { intros words text E H. apply any_word_in_has_keyword in H. congruence. }
  split; [reflexivity|]. split; [apply Hnil; reflexivity|].
  split; [|split].
  - apply Hboth; apply any_word_in_has_keyword; reflexivity.
  - apply (H3 (Str.lit "Ненавижу")).
    + apply Hno; reflexivity.
    + apply any_word_in_has_keyword; reflexivity.
  - apply (H3 (Str.lit "обычный день")); apply Hno; reflexivity.
Defined.

(** C2 on the sample: B is created in the database holding A and then
    listed. *)
Lemma create_then_list_includes_review_witness :
  create_review Str.lower_basic Sample.good 0 Sample.db_A
  = (ReviewBody (dict_of_record Sample.rowB), Sample.db_AB)
  /\ get_reviews None Sample.db_AB (get_reviews_stable None Sample.db_AB)
  /\ exists d',
       In d' (get_reviews_stable None Sample.db_AB)
       /\ dict_get "id" d' = dict_get "id" (dict_of_record Sample.rowB)
       /\ dict_get "text" d' = dict_get "text" (dict_of_record Sample.rowB)
       /\ dict_get "sentiment" d'
          = dict_get "sentiment" (dict_of_record Sample.rowB)
       /\ dict_get "text" (dict_of_record Sample.rowB)
          = Some (Text (ReviewRequest.text Sample.good))
       /\ dict_get "sentiment" (dict_of_record Sample.rowB)
          = Some (Text (analyze_sentiment Str.lower_basic
                          (ReviewRequest.text Sample.good))).
Proof.
  split; [reflexivity|]. split; [now apply get_reviews_stable_sound|].
  apply (create_then_list_includes_review Str.lower_basic
           Sample.good 0 Sample.db_A (dict_of_record Sample.rowB) Sample.db_AB).
  - reflexivity.
  - now apply get_reviews_stable_sound.
Defined.

(** C3 as stated fails for the empty string: in the database holding the
    single neutral review A, a listing with the parameter present and empty
    returns A, which is not the set of rows whose sentiment is the empty
    string. *)
Lemma get_reviews_empty_filter_not_literal :
  snd (create_review Str.lower_basic Sample.empty_text 0 empty_database)
  = Sample.db_A
  /\ (forall out, get_reviews (Some []) Sample.db_A out <->
                  out = [dict_of_record Sample.rowA])
  /\ ~ returns_exactly (sentiment_is []) Sample.db_A
         [dict_of_record Sample.rowA].
Proof.
  split; [reflexivity|]. split; [now apply singleton_listing|].
  intros [rows [Hperm Heq]]. simpl in Hperm.
  apply Permutation_nil in Hperm. subst. discriminate.
Qed.

(** C3 (amended) on the sample: the filter [positive] returns exactly B. *)
Lemma get_reviews_filter_nonempty_witness :
  get_reviews (Some positive) Sample.db_AB [dict_of_record Sample.rowB]
  /\ returns_exactly (sentiment_is positive) Sample.db_AB
       [dict_of_record Sample.rowB].
Proof.
  assert (H : get_reviews (Some positive) Sample.db_AB
                [dict_of_record Sample.rowB]).
  { apply (singleton_listing (Some positive) Sample.db_AB Sample.rowB);
      reflexivity. }
  split; [exact H|].
  exact (get_reviews_filter_nonempty (Some positive) Sample.db_AB _ H).
Defined.


(** C4.  The creation of B returns the row read back by its id, but its
    [created_at] is the timestamp value itself and no string: the returned
    dict is not an instance of the declared [ReviewResponse], whose
    [created_at] is a [str]. *)
Theorem create_review_created_at_is_datetime :
  create_review Str.lower_basic Sample.good 0 Sample.db_A
  = (ReviewBody (dict_of_record Sample.rowB), Sample.db_AB)
  /\ Sql.select_by_id 2 Sample.db_AB = Some Sample.rowB
  /\ dict_get "created_at" (dict_of_record Sample.rowB) = Some (Datetime 0)
  /\ (forall s, dict_get "created_at" (dict_of_record Sample.rowB)
                <> Some (Text s))
  /\ instance_of ReviewResponse (dict_of_record Sample.rowB) = false.
Proof. repeat split. discriminate. Qed.

(** C5 as stated fails for equal timestamps: A and then B are created with
    the same timestamp, and a listing that returns A first is ordered by
    [created_at] descending; the stable ordering returns exactly it. *)
Lemma get_reviews_equal_timestamps_order :
  create_review Str.lower_basic Sample.empty_text 0 empty_database
  = (ReviewBody (dict_of_record Sample.rowA), Sample.db_A)
  /\ create_review Str.lower_basic Sample.good 0 Sample.db_A
     = (ReviewBody (dict_of_record Sample.rowB), Sample.db_AB)
  /\ Review.created_at Sample.rowA <= Review.created_at Sample.rowB
  /\ get_reviews None Sample.db_AB
       [dict_of_record Sample.rowA; dict_of_record Sample.rowB]
  /\ get_reviews_stable None Sample.db_AB
     = [dict_of_record Sample.rowA; dict_of_record Sample.rowB]
  /\ ~ precedes (dict_of_record Sample.rowB) (dict_of_record Sample.rowA)
         [dict_of_record Sample.rowA; dict_of_record Sample.rowB].
Proof.
  split; [reflexivity|]. split; [reflexivity|]. split; [simpl; lia|].
  assert (Hst : get_reviews_stable None Sample.db_AB
                = [dict_of_record Sample.rowA; dict_of_record Sample.rowB])
    by reflexivity.
  split; [rewrite <- Hst; now apply get_reviews_stable_sound|].
  split; [exact Hst|].
  intros [l1 [l2 [l3 H]]].
  destruct l1 as [|a [|b l1]]; simpl in H.
  - discriminate H.
  - destruct l2; discriminate H.
  - destruct l1; discriminate H.
Qed.

(** C5 (amended) on the sample: B created one tick after A is listed
    first. *)
Lemma get_reviews_newest_first_witness :
  create_review Str.lower_basic Sample.empty_text 0 empty_database
  = (ReviewBody (dict_of_record Sample.rowA), Sample.db_A)
  /\ create_review Str.lower_basic Sample.good 1 Sample.db_A
     = (ReviewBody (dict_of_record Sample.rowB_later), Sample.db_AB_later)
  /\ 0 < 1
  /\ get_reviews None Sample.db_AB_later
       (get_reviews_stable None Sample.db_AB_later)
  /\ newest_first (get_reviews_stable None Sample.db_AB_later)
  /\ precedes (dict_of_record Sample.rowB_later) (dict_of_record Sample.rowA)
       (get_reviews_stable None Sample.db_AB_later).
Proof.
  pose proof (get_reviews_newest_first Str.lower_basic)
    as [Hsorted [Horder _]].
  pose proof (get_reviews_stable_sound None Sample.db_AB_later eq_refl) as Hlist.
  split; [reflexivity|]. split; [reflexivity|]. split; [lia|].
  split; [exact Hlist|]. split.
  - exact (Hsorted None Sample.db_AB_later _ Hlist).
  - apply (Horder Sample.empty_text 0 empty_database
             (dict_of_record Sample.rowA) Sample.db_A
             Sample.good 1 (dict_of_record Sample.rowB_later)
             Sample.db_AB_later);
      [reflexivity | reflexivity | lia | exact Hlist].
Defined.

(** C6 on the sample: an object without [text] and a malformed body, sent
    to the database holding A. *)
Lemma post_reviews_rejects_missing_text_witness :
  has_member text_field (JObject [(Sample.unknown, JString [])]) = false
  /\ post_reviews Str.lower_basic
       (Some (JObject [(Sample.unknown, JString [])])) 0 Sample.db_A
     = (ClientError, Sample.db_A)
  /\ post_reviews Str.lower_basic None 0 Sample.db_A
     = (ClientError, Sample.db_A).
Proof.
  split; [reflexivity|]. split.
  - apply (post_reviews_rejects_missing_text Str.lower_basic
             (Some (JObject [(Sample.unknown, JString [])])) 0 Sample.db_A).
    right. eexists. split; reflexivity.
  - apply (post_reviews_rejects_missing_text Str.lower_basic None 0
             Sample.db_A).
    now left.
Defined.

(** C7 as stated fails for two values outside the enumeration that no
    stored row carries: for the empty string the listing returns A, not the
    empty sequence; for the string that consists of code point 0 the query
    raises and the request is answered with a server error. *)
Lemma get_reviews_empty_filter_not_empty :
  ~ enumerated []
  /\ (forall r, In r (reviews Sample.db_A) -> Review.sentiment r <> [])
  /\ (forall out, get_reviews (Some []) Sample.db_A out <->
                  out = [dict_of_record Sample.rowA])
  /\ [dict_of_record Sample.rowA] <> []
  /\ ~ enumerated Sample.nul
  /\ (forall r, In r (reviews Sample.db_A) ->
                Review.sentiment r <> Sample.nul)
  /\ get_reviews_raises (Some Sample.nul) Sample.db_A
  /\ (forall out, ~ get_reviews (Some Sample.nul) Sample.db_A out)
  /\ step Str.lower_basic Sample.db_A (GET_reviews (Some Sample.nul))
          ServerError Sample.db_A.
Proof.
  split; [intros [H | [H | H]]; discriminate|].
  split; [intros r [<- | []]; discriminate|].
  split; [now apply singleton_listing|]. split; [discriminate|].
  split; [intros [H | [H | H]]; discriminate|].
  split; [intros r [<- | []]; discriminate|].
  assert (Hr : get_reviews_raises (Some Sample.nul) Sample.db_A)
    by reflexivity.
  split; [exact Hr|]. split; [intros out [H _]; discriminate|].
  now apply step_get_raises.
Qed.

(** C7 (amended) on the sample: the filter [unknown] on the database
    holding A and B. *)
Lemma get_reviews_unrecognized_filter_empty_witness :
  Sample.unknown <> []
  /\ Sql.encodable Sample.unknown = true
  /\ ~ enumerated Sample.unknown
  /\ sentiments_enumerated Sample.db_AB
  /\ ~ get_reviews_raises (Some Sample.unknown) Sample.db_AB
  /\ get_reviews (Some Sample.unknown) Sample.db_AB []
  /\ get_reviews_stable (Some Sample.unknown) Sample.db_AB = []
  /\ get_reviews_run (Some Sample.unknown) Sample.db_AB = Some []
  /\ (forall resp db',
         step Str.lower_basic Sample.db_AB
              (GET_reviews (Some Sample.unknown)) resp db' ->
         resp = ReviewsBody [] /\ db' = Sample.db_AB).
Proof.
  assert (Hne : Sample.unknown <> []) by discriminate.
  assert (Henc : Sql.encodable Sample.unknown = true) by reflexivity.
  assert (Hout : ~ enumerated Sample.unknown)
    by (intros [H | [H | H]]; discriminate).
  assert (Hinv : sentiments_enumerated Sample.db_AB).
  { unfold sentiments_enumerated; simpl.
    constructor; [right; right; reflexivity|].
    constructor; [left; reflexivity | constructor]. }
  destruct (proj2 (get_reviews_unrecognized_filter_empty Str.lower_basic)
              Sample.unknown Sample.db_AB Hne Henc Hout Hinv)
    as [Hno [Hnil [Honly Hstep]]].
  split; [exact Hne|]. split; [exact Henc|]. split; [exact Hout|].
  split; [exact Hinv|]. split; [exact Hno|]. split; [exact Hnil|].
  split; [apply Honly; now apply get_reviews_stable_sound|].
  split; [reflexivity | exact Hstep].
Defined.

(** C8 on the sample: the creation of A on the fresh table, which stores
    the row of A and is answered with a server error. *)
Lemma sentiments_enumerated_invariant_witness :
  sentiments_enumerated (init_db None)
  /\ step Str.lower_basic (init_db None)
       (POST_reviews (Some (JObject [(text_field, JString [])])) 0)
       ServerError Sample.db_A
  /\ sentiments_enumerated Sample.db_A.
Proof.
  pose proof (sentiments_enumerated_invariant Str.lower_basic)
    as [Hinit [Hstep _]].
  assert (Hs : step Str.lower_basic (init_db None)
       (POST_reviews (Some (JObject [(text_field, JString [])])) 0)
       ServerError Sample.db_A).
  { exact (step_post Str.lower_basic
             (Some (JObject [(text_field, JString [])])) 0 (init_db None)). }
  split; [exact Hinit|]. split; [exact Hs|].
  exact (Hstep _ _ _ _ Hinit Hs).
Defined.

(** C9 as stated fails: a request submitting the empty string is accepted
    and its row is persisted with an empty text. *)
Lemma persisted_text_may_be_empty :
  validate_ReviewRequest (Some (JObject [(text_field, JString [])]))
  = Some Sample.empty_text
  /\ In Sample.rowA
       (reviews (create_all Str.lower_basic [(Sample.empty_text, 0)]
                   empty_database))
  /\ Review.text Sample.rowA = [].
Proof. repeat split. now left. Qed.

(** C9 (amended) on the sample: the row of B was inserted by the second
    request, the one after the request of A, and has its text. *)
Lemma persisted_text_is_submitted_witness :
  In Sample.rowB
    (reviews (create_all Str.lower_basic
                [(Sample.empty_text, 0); (Sample.good, 0)] empty_database))
  /\ exists before review now after,
       [(Sample.empty_text, 0); (Sample.good, 0)]
       = before ++ (review, now) :: after
       /\ fst (create_review Str.lower_basic review now
                 (create_all Str.lower_basic before empty_database))
          = ReviewBody (dict_of_record Sample.rowB)
       /\ reviews (snd (create_review Str.lower_basic review now
                          (create_all Str.lower_basic before empty_database)))
          = reviews (create_all Str.lower_basic before empty_database)
            ++ [Sample.rowB]
       /\ Review.text Sample.rowB = ReviewRequest.text review.
Proof.
  assert (H : In Sample.rowB
    (reviews (create_all Str.lower_basic
                [(Sample.empty_text, 0); (Sample.good, 0)] empty_database)))
    by (right; now left).
  split; [exact H|].
  exact (persisted_text_is_submitted Str.lower_basic _ _ H).
Defined.

(** C10 on the sample: the listing with an empty filter of the database
    holding A and B returns both. *)
Lemma get_reviews_empty_string_as_absent_witness :
  get_reviews (Some []) Sample.db_AB
    [dict_of_record Sample.rowA; dict_of_record Sample.rowB]
  /\ get_reviews None Sample.db_AB
       [dict_of_record Sample.rowA; dict_of_record Sample.rowB]
  /\ Permutation [dict_of_record Sample.rowA; dict_of_record Sample.rowB]
       (map dict_of_record (reviews Sample.db_AB))
  /\ List.length [dict_of_record Sample.rowA; dict_of_record Sample.rowB]
     = List.length (reviews Sample.db_AB)
  /\ get_reviews_run (Some []) Sample.db_AB
     = Some [dict_of_record Sample.rowA; dict_of_record Sample.rowB].
Proof.
  assert (H : get_reviews (Some []) Sample.db_AB
                [dict_of_record Sample.rowA; dict_of_record Sample.rowB]).
  { now apply (get_reviews_stable_sound (Some []) Sample.db_AB). }
  destruct (get_reviews_empty_string_as_absent Sample.db_AB
              [dict_of_record Sample.rowA; dict_of_record Sample.rowB])
    as [Hiff [Hall _]].
  destruct (Hall H) as [Hperm [Hlen _]].
  split; [exact H|]. split; [exact (proj1 Hiff H)|].
  split; [exact Hperm|]. split; [exact Hlen | reflexivity].
Defined.

(** ** The further properties on the sample *)

(** X2 on the sample: a text of two letters. *)
Lemma analyze_sentiment_short_neutral_witness :
  (List.length (Str.lower_basic (Str.lit "Да")) < 5)%nat
  /\ analyze_sentiment Str.lower_basic (Str.lit "Да") = neutral.
Proof.
  assert (H : (List.length (Str.lower_basic (Str.lit "Да")) < 5)%nat)
    by (vm_compute; lia).
  split; [exact H|].
  exact (analyze_sentiment_short_neutral Str.lower_basic _ H).
Defined.

(** X3 on the sample: the request of B is sent to the database holding
    A. *)
Lemma create_review_stores_or_raises_witness :
  validate_ReviewRequest
    (Some (JObject [(text_field, JString Sample.good_text)]))
  = Some Sample.good
  /\ fst (post_reviews Str.lower_basic
            (Some (JObject [(text_field, JString Sample.good_text)]))
            0 Sample.db_A)
     = ServerError
  /\ snd (post_reviews Str.lower_basic
            (Some (JObject [(text_field, JString Sample.good_text)]))
            0 Sample.db_A)
     = Sample.db_AB.
Proof.
  assert (H : validate_ReviewRequest
                (Some (JObject [(text_field, JString Sample.good_text)]))
              = Some Sample.good) by reflexivity.
  split; [exact H|].
  exact (proj2 (create_review_stores_or_raises Str.lower_basic
                  Sample.good 0 Sample.db_A) _ H).
Defined.

(** X4 on the sample: B is created in the database holding A. *)
Lemma create_all_unique_ids_witness :
  unique_ids Sample.db_A
  /\ unique_ids (create_all Str.lower_basic [(Sample.good, 0)] Sample.db_A).
Proof.
  assert (H : unique_ids Sample.db_A).
  { unfold unique_ids. simpl. constructor; [intros [] | constructor]. }
  split; [exact H|].
  exact (create_all_unique_ids Str.lower_basic _ _ H).
Defined.

(** X5 on the sample: the creation of B in the database holding A. *)
Lemma create_review_on_sequence_fed_witness :
  ids_from_sequence Sample.db_A
  /\ create_review Str.lower_basic Sample.good 0 Sample.db_A
     = (ReviewBody (dict_of_record Sample.rowB), Sample.db_AB)
  /\ ids_from_sequence Sample.db_AB.
Proof.
  assert (H : ids_from_sequence Sample.db_A).
  { unfold ids_from_sequence. simpl. constructor; [simpl; lia | constructor]. }
  split; [exact H|].
  exact (create_review_on_sequence_fed Str.lower_basic Sample.good 0
           Sample.db_A H).
Defined.

(** X6 on the sample: A is looked up before and after the creation of B. *)
Lemma select_by_id_stored_witness :
  unique_ids Sample.db_A
  /\ In Sample.rowA (reviews Sample.db_A)
  /\ Sql.select_by_id 1 Sample.db_A = Some Sample.rowA
  /\ Sql.select_by_id 1 Sample.db_AB = Some Sample.rowA.
Proof.
  assert (Hu : unique_ids Sample.db_A).
  { unfold unique_ids. simpl. constructor; [intros [] | constructor]. }
  assert (Hin : In Sample.rowA (reviews Sample.db_A)) by now left.
  split; [exact Hu|]. split; [exact Hin|].
  exact (select_by_id_stored Str.lower_basic Sample.good 0 Sample.db_A
           Sample.rowA Hu Hin).
Defined.

(** X7 on the sample: A, a text that holds code point 0, and B are
    submitted to a fresh table. *)
Lemma create_all_on_fresh_table_witness :
  Z.of_nat
    (List.length
       (accepted [(Sample.empty_text, 0);
                  (ReviewRequest.mk Sample.nul, 0);
                  (Sample.good, 0)]))
  <= serial_max
  /\ accepted [(Sample.empty_text, 0);
               (ReviewRequest.mk Sample.nul, 0);
               (Sample.good, 0)]
     = [(Sample.empty_text, 0); (Sample.good, 0)]
  /\ create_all Str.lower_basic
       [(Sample.empty_text, 0); (ReviewRequest.mk Sample.nul, 0);
        (Sample.good, 0)] empty_database
     = Sample.db_AB
  /\ map Review.id (reviews Sample.db_AB) = [1; 2]
  /\ map Review.text (reviews Sample.db_AB) = [[]; Sample.good_text]
  /\ map Review.sentiment (reviews Sample.db_AB) = [neutral; positive]
  /\ map Review.created_at (reviews Sample.db_AB) = [0; 0].
Proof.
  assert (H : Z.of_nat
    (List.length
       (accepted [(Sample.empty_text, 0);
                  (ReviewRequest.mk Sample.nul, 0);
                  (Sample.good, 0)]))
    <= serial_max) by (unfold serial_max; simpl; lia).
  split; [exact H|]. split; [reflexivity|]. split; [reflexivity|].
  exact (create_all_on_fresh_table Str.lower_basic
           [(Sample.empty_text, 0); (ReviewRequest.mk Sample.nul, 0);
            (Sample.good, 0)] H).
Defined.

(** X8 on the sample: the rows of A and B. *)
Lemma stored_sentiment_is_classification_witness :
  Forall (fun r => Review.sentiment r
                   = analyze_sentiment Str.lower_basic (Review.text r))
         (reviews empty_database)
  /\ Forall (fun r => Review.sentiment r
                      = analyze_sentiment Str.lower_basic (Review.text r))
            (reviews Sample.db_AB).
Proof.
  assert (H : Forall (fun r => Review.sentiment r
                   = analyze_sentiment Str.lower_basic (Review.text r))
         (reviews empty_database)) by constructor.
  split; [exact H|].
  exact (stored_sentiment_is_classification Str.lower_basic
           [(Sample.empty_text, 0); (Sample.good, 0)] empty_database H).
Defined.

(** X10 on the sample: the three filtered listings of the database holding
    A and B. *)
Lemma filtered_listings_partition_witness :
  sentiments_enumerated Sample.db_AB
  /\ Permutation
       (get_reviews_stable (Some positive) Sample.db_AB
        ++ get_reviews_stable (Some negative) Sample.db_AB
        ++ get_reviews_stable (Some neutral) Sample.db_AB)
       (get_reviews_stable None Sample.db_AB).
Proof.
  assert (Hinv : sentiments_enumerated Sample.db_AB).
  { unfold sentiments_enumerated; simpl.
    constructor; [right; right; reflexivity|].
    constructor; [left; reflexivity | constructor]. }
  split; [exact Hinv|].
  apply (filtered_listings_partition Sample.db_AB _ _ _ _ Hinv);
    now apply get_reviews_stable_sound.
Defined.


Lemma get_reviews_reverse_insertion_order_witness :
  clock_increasing Sample.db_AB_later
  /\ get_reviews None Sample.db_AB_later
       [dict_of_record Sample.rowB_later; dict_of_record Sample.rowA].
Proof.
  assert (Hinc : clock_increasing Sample.db_AB_later).
  { unfold clock_increasing. simpl.
    constructor; [repeat constructor|].
    constructor; [simpl; lia | constructor]. }
  split; [exact Hinc|].
  apply (get_reviews_reverse_insertion_order Sample.db_AB_later _ Hinc).
  reflexivity.
Defined.

(** X13 on the sample: B under the filters positive and neutral. *)
Lemma created_review_under_filters_witness :
  create_review Str.lower_basic Sample.good 0 Sample.db_A
  = (ReviewBody (dict_of_record Sample.rowB), Sample.db_AB)
  /\ In (dict_of_record Sample.rowB)
        (get_reviews_stable (Some positive) Sample.db_AB)
  /\ ~ In (dict_of_record Sample.rowB)
         (get_reviews_stable (Some neutral) Sample.db_AB).
Proof.
  assert (Hc : create_review Str.lower_basic Sample.good 0 Sample.db_A
               = (ReviewBody (dict_of_record Sample.rowB), Sample.db_AB))
    by reflexivity.
  destruct (created_review_under_filters Str.lower_basic _ _ _ _ _ Hc)
    as [Hown Hother].
  split; [exact Hc|]. split.
  - apply Hown. now apply (get_reviews_stable_sound (Some positive)).
  - apply (Hother neutral); [discriminate | discriminate |].
    now apply get_reviews_stable_sound.
Defined.

(** X14 on the sample: the listings before and after the creation of B. *)
Lemma listing_grows_by_created_review_witness :
  create_review Str.lower_basic Sample.good 0 Sample.db_A
  = (ReviewBody (dict_of_record Sample.rowB), Sample.db_AB)
  /\ Permutation (get_reviews_stable None Sample.db_AB)
       (dict_of_record Sample.rowB :: get_reviews_stable None Sample.db_A).
Proof.
  assert (Hc : create_review Str.lower_basic Sample.good 0 Sample.db_A
               = (ReviewBody (dict_of_record Sample.rowB), Sample.db_AB))
    by reflexivity.
  split; [exact Hc|].
  apply (listing_grows_by_created_review Str.lower_basic _ _ _ _ _ _ _ Hc);
    now apply get_reviews_stable_sound.
Defined.

(** X15 on the sample: the single entry of the listing of the database
    holding A. *)
Lemma listed_entries_carry_timestamps_witness :
  get_reviews None Sample.db_A (get_reviews_stable None Sample.db_A)
  /\ In (dict_of_record Sample.rowA) (get_reviews_stable None Sample.db_A)
  /\ instance_of ReviewResponse (dict_of_record Sample.rowA) = false.
Proof.
  pose proof (get_reviews_stable_sound None Sample.db_A eq_refl) as H.
  assert (Hin : In (dict_of_record Sample.rowA)
                   (get_reviews_stable None Sample.db_A)) by now left.
  split; [exact H|]. split; [exact Hin|].
  exact (proj2 (listed_entries_carry_timestamps _ _ _ _ H Hin)).
Defined.

(** X16 on the sample: the creation of B in the database holding A. *)
Lemma created_id_exceeds_stored_witness :
  ids_from_sequence Sample.db_A
  /\ create_review Str.lower_basic Sample.good 0 Sample.db_A
     = (ReviewBody (dict_of_record Sample.rowB), Sample.db_AB)
  /\ dict_get "id" (dict_of_record Sample.rowB) = Some (Int 2)
  /\ forall r, In r (reviews Sample.db_A) -> Review.id r < 2.
Proof.
  assert (H : ids_from_sequence Sample.db_A).
  { unfold ids_from_sequence. simpl. constructor; [simpl; lia | constructor]. }
  assert (Hc : create_review Str.lower_basic Sample.good 0 Sample.db_A
               = (ReviewBody (dict_of_record Sample.rowB), Sample.db_AB))
    by reflexivity.
  split; [exact H|]. split; [exact Hc|].
  exact (created_id_exceeds_stored Str.lower_basic _ _ _ _ _ H Hc).
Defined.

(** X17 on the sample: the filter positive on the database holding A and
    the later B. *)
Lemma filtered_listing_is_filtered_full_listing_witness :
  distinct_timestamps Sample.db_AB_later
  /\ positive <> []
  /\ get_reviews_stable (Some positive) Sample.db_AB_later
     = filter (entry_has_sentiment positive)
         (get_reviews_stable None Sample.db_AB_later).
Proof.
  assert (Hd : distinct_timestamps Sample.db_AB_later).
  { unfold distinct_timestamps. simpl.
    constructor; [intros [H | []]; discriminate|].
    constructor; [intros [] | constructor]. }
  assert (Hs : positive <> []) by discriminate.
  split; [exact Hd|]. split; [exact Hs|].
  apply (filtered_listing_is_filtered_full_listing positive
           Sample.db_AB_later _ _ Hd Hs);
    now apply get_reviews_stable_sound.
Defined.

(** X18 on the sample: the unfiltered listing of the database holding A is
    answered with a server error. *)
Lemma get_reviews_endpoint_answer_witness :
  step Str.lower_basic Sample.db_A (GET_reviews None) ServerError Sample.db_A
  /\ selected None Sample.db_A <> [].
Proof.
  assert (H : step Str.lower_basic Sample.db_A (GET_reviews None)
                ServerError Sample.db_A).
  { exact (step_get Str.lower_basic None Sample.db_A _
             (get_reviews_stable_sound None Sample.db_A eq_refl)). }
  split; [exact H|].
  destruct (get_reviews_endpoint_answer Str.lower_basic _ _ _ _ H)
    as [_ [[Habs _] | [_ [Habs | Hsel]]]];
    [discriminate | discriminate | exact Hsel].
Defined.
